(** * fix_geojson.py: the GeoJSON repair pipeline

    A shallow embedding of [src/fix_geojson.py]: the coordinate-depth
    normalizer [fix_geojson_structure], the validity repairer
    [fix_polygon_validity] and the orchestrator [repair_geojson_no_gpd],
    with the Python values they handle (what [json.load] returns), the
    exceptions they raise and catch, and the calls they make on the progress
    variable, the message box and the output file. *)

From stdpp Require Import gmap strings list fin_maps sorting.
From Stdlib Require Import ZArith QArith Sorted.

Set Warnings "-register-all".

Local Open Scope Z_scope.

(** ** Python values

    [json.load] builds a tree of [None], [bool], [int], [float], [str],
    [list] and [dict] objects, each of them fresh: no object is reachable
    twice. The in-place updates of the source ([geom_dict["coordinates"] =
    ...], [feat["geometry"] = ...], [data["features"] = ...]) are therefore
    visible only through the one path that leads to the updated dict, and
    are written here as the updated value put back at that path. A [dict]
    is a finite map from its string keys ([json.load] keeps the last of two
    equal keys); the order of the keys is not modelled. *)

Inductive json : Type :=
| JNull
| JBool (b : bool)
| JInt (z : Z)
| JFloat (q : Q)
| JStr (s : string)
| JList (l : list json)
| JDict (m : gmap string json).

(** ** Exceptions

    Every exception of the program is caught by class ([except
    TopologicalError], [except Exception]) and reported by [str(e)]. *)

Inductive exn_class : Type :=
| TypeError
| AttributeError
| IndexError
| KeyError
| TopologicalError
| OtherError.

Record exn : Type := Exn { exn_cls : exn_class; exn_str : string }.

Inductive res (A : Type) : Type :=
| Ok (a : A)
| Raise (e : exn).
Arguments Ok {A} a.
Arguments Raise {A} e.

(** ** Built-in operations, as Python defines them on these values *)

(** [bool(x)], the test of [if x] and [not x]. *)
Definition truthy (x : json) : bool :=
  match x with
  | JNull => false
  | JBool b => b
  | JInt z => negb (Z.eqb z 0)
  | JFloat q => negb (Z.eqb (Qnum q) 0)
  | JStr s => negb (String.eqb s "")
  | JList l => match l with [] => false | _ => true end
  | JDict m => negb (bool_decide (m = ∅))
  end.

(** [sub in s] on two strings: [sub] occurs in [s]. *)
Fixpoint str_contains (sub s : string) : bool :=
  String.prefix sub s
  || match s with
     | EmptyString => false
     | String _ s' => str_contains sub s'
     end.

(** [key in x] for a string [key]: a key of a dict, a substring of a
    string, an element of a list (only a string equals a string); the other
    values are not iterable. *)
Definition py_in (key : string) (x : json) : res bool :=
  match x with
  | JDict m => Ok (bool_decide (is_Some (m !! key)))
  | JStr s => Ok (str_contains key s)
  | JList l =>
      Ok (existsb (fun y => match y with JStr s => String.eqb s key | _ => false end) l)
  | JNull => Raise (Exn TypeError "argument of type 'NoneType' is not iterable")
  | JBool _ => Raise (Exn TypeError "argument of type 'bool' is not iterable")
  | JInt _ => Raise (Exn TypeError "argument of type 'int' is not iterable")
  | JFloat _ => Raise (Exn TypeError "argument of type 'float' is not iterable")
  end.

(** [x[key]] for a string [key]. The source subscripts only after [key in x]
    held, so a dict has the key; a string or a list takes no string index. *)
Definition py_getitem (x : json) (key : string) : res json :=
  match x with
  | JDict m =>
      match m !! key with
      | Some v => Ok v
      | None => Raise (Exn KeyError key)
      end
  | JStr _ => Raise (Exn TypeError "string indices must be integers")
  | JList _ => Raise (Exn TypeError "list indices must be integers or slices, not str")
  | _ => Raise (Exn TypeError "object is not subscriptable")
  end.

(** [x[key] = v] on a dict. *)
Definition py_setitem (x : json) (key : string) (v : json) : res json :=
  match x with
  | JDict m => Ok (JDict (<[key := v]> m))
  | _ => Raise (Exn TypeError "object does not support item assignment")
  end.

(** [x[0]]. *)
Definition py_first (x : json) : res json :=
  match x with
  | JList (y :: _) => Ok y
  | JList [] => Raise (Exn IndexError "list index out of range")
  | JStr (String c _) => Ok (JStr (String c EmptyString))
  | JStr EmptyString => Raise (Exn IndexError "string index out of range")
  | JDict _ => Raise (Exn KeyError "0")
  | _ => Raise (Exn TypeError "object is not subscriptable")
  end.

(** [x == s] for a string literal [s]. *)
Definition py_eq_str (x : json) (s : string) : bool :=
  match x with
  | JStr t => String.eqb t s
  | _ => false
  end.

(** ** The coordinate-depth normalizer *)

(** The local function [depth] of [fix_geojson_structure]. *)
Fixpoint depth (lst : json) : nat :=
  match lst with
  | JList (x :: _) => S (depth x)
  | _ => 0%nat
  end.

#[global] Instance res_ret : MRet res := fun _ a => Ok a.
#[global] Instance res_bind : MBind res := fun _ _ f m =>
  match m with
  | Ok a => f a
  | Raise e => Raise e
  end.

(** [fix_geojson_structure(geom_dict)]. The dict is updated in place and
    returned: the result is the value the one dict object holds afterwards. *)
Definition fix_geojson_structure (geom_dict : json) : res json :=
  if negb (truthy geom_dict) then Ok geom_dict else
  has_type ← py_in "type" geom_dict;
  if negb has_type then Ok geom_dict else
  has_coords ← py_in "coordinates" geom_dict;
  if negb has_coords then Ok geom_dict else
  gtype ← py_getitem geom_dict "type";
  coords ← py_getitem geom_dict "coordinates";
  let d := depth coords in
  if py_eq_str gtype "Polygon" then
    coords' ← (if Nat.eqb d 2 then Ok (JList [coords])
               else if Nat.ltb 3 d then py_first coords
               else Ok coords);
    py_setitem geom_dict "coordinates" coords'
  else if py_eq_str gtype "MultiPolygon" then
    coords' ← (if Nat.eqb d 3 then Ok (JList [coords])
               else if Nat.ltb 4 d then py_first coords
               else Ok coords);
    py_setitem geom_dict "coordinates" coords'
  else Ok geom_dict.

(** ** The geometry engine

    Shapely is an external library: what the program uses of it is an
    interface. [shape] parses a geometry dict and raises on one it cannot
    interpret; [is_valid] is the validity predicate; [buffer0] is
    [geom.buffer(0)], which may raise [TopologicalError] (or another
    engine error); [mapping] exports a geometry as a dict; [is_empty]
    decides the truth value of a geometry object ([bool(geom)] is
    [not geom.is_empty]). *)

Class Engine : Type := {
  geometry : Type;
  shape : json → res geometry;
  is_valid : geometry → bool;
  buffer0 : geometry → res geometry;
  mapping : geometry → json;
  is_empty : geometry → bool;
}.

(** ** The files

    [read_json path] is [open(path, "r", encoding="utf-8")] followed by
    [json.load]: the parsed document, or the exception of a missing or
    unreadable file or of malformed JSON. [open_write path] is the exception,
    if any, of the write step: of [open(path, "w", encoding="utf-8")] or of
    [json.dump] into the file. The trace of a run whose write step raises
    holds no [JsonDump]; the source may by then have truncated or partly
    written the file, and nothing here speaks of the file after a failed
    write. *)

Class Files : Type := {
  read_json : string → res json;
  open_write : string → option exn;
}.

(** ** What a run does to the outside

    The calls on the progress variable, on the message box and the one
    [json.dump], in the order the run makes them. *)

Inductive event : Type :=
| ProgressSet (v : Z)
| JsonDump (path : string) (data : json) (ensure_ascii : bool) (indent : Z)
| ShowInfo (title message : string)
| ShowError (title message : string).

(** A computation returns or raises, and leaves the calls it made. *)
Definition io (A : Type) : Type := (res A * list event)%type.

#[global] Instance io_ret : MRet io := fun _ a => (Ok a, []).
#[global] Instance io_bind : MBind io := fun _ _ f m =>
  match m.1 with
  | Ok a => let r := f a in (r.1, m.2 ++ r.2)
  | Raise e => (Raise e, m.2)
  end.

Definition emit (ev : event) : io unit := (Ok tt, [ev]).
Definition lift {A : Type} (r : res A) : io A := (r, []).

(** [try: m except Exception as e: h e]. *)
Definition try_except {A : Type} (m : io A) (h : exn → io A) : io A :=
  match m.1 with
  | Ok a => m
  | Raise e => let r := h e in (r.1, m.2 ++ r.2)
  end.

(** More built-ins, for the orchestrator. *)

(** [x.get(key, default)]: only a dict has the method. *)
Definition py_get (x : json) (key : string) (default : json) : res json :=
  match x with
  | JDict m => Ok (from_option id default (m !! key))
  | JNull => Raise (Exn AttributeError "'NoneType' object has no attribute 'get'")
  | JBool _ => Raise (Exn AttributeError "'bool' object has no attribute 'get'")
  | JInt _ => Raise (Exn AttributeError "'int' object has no attribute 'get'")
  | JFloat _ => Raise (Exn AttributeError "'float' object has no attribute 'get'")
  | JStr _ => Raise (Exn AttributeError "'str' object has no attribute 'get'")
  | JList _ => Raise (Exn AttributeError "'list' object has no attribute 'get'")
  end.

Fixpoint chars (s : string) : list json :=
  match s with
  | EmptyString => []
  | String c s' => JStr (String c EmptyString) :: chars s'
  end.

(** The items [for feat in x] visits: the elements of a list, the
    characters of a string, the keys of a dict. Each key or character is a
    string, on which the loop body raises at once, so the order of the keys
    cannot be observed. *)
Definition py_iter (x : json) : res (list json) :=
  match x with
  | JList l => Ok l
  | JStr s => Ok (chars s)
  | JDict m => Ok (JStr <$> (map_to_list m).*1)
  | JNull => Raise (Exn TypeError "'NoneType' object is not iterable")
  | JBool _ => Raise (Exn TypeError "'bool' object is not iterable")
  | JInt _ => Raise (Exn TypeError "'int' object is not iterable")
  | JFloat _ => Raise (Exn TypeError "'float' object is not iterable")
  end.

(** [len(x)]. *)
Definition py_len (x : json) : res Z :=
  match x with
  | JList l => Ok (Z.of_nat (length l))
  | JStr s => Ok (Z.of_nat (String.length s))
  | JDict m => Ok (Z.of_nat (size m))
  | JNull => Raise (Exn TypeError "object of type 'NoneType' has no len()")
  | JBool _ => Raise (Exn TypeError "object of type 'bool' has no len()")
  | JInt _ => Raise (Exn TypeError "object of type 'int' has no len()")
  | JFloat _ => Raise (Exn TypeError "object of type 'float' has no len()")
  end.

Definition newline : string := String (Ascii.ascii_of_nat 10) EmptyString.

Section Repair.
Context {engine : Engine} {files : Files}.

(** ** The validity repairer

    [fix_polygon_validity(geom)]: [None] is the failure signal. Only
    [TopologicalError] is caught. *)
Definition fix_polygon_validity (geom : geometry) : res (option geometry) :=
  match
    (if is_valid geom then Ok (Some geom) else
     fixed ← buffer0 geom;
     if is_valid fixed then Ok (Some fixed) else Ok None)
  with
  | Ok r => Ok r
  | Raise e =>
      match exn_cls e with
      | TopologicalError => Ok None
      | _ => Raise e
      end
  end.

(** The value shown by the progress bar after [done] of [total]
    features: [30 + int(60 * done / max(1, total))]. The quotient of the
    source is a float, exact for every list that fits in memory; [int]
    truncates. *)
Definition progress_of (done total : Z) : Z :=
  30 + Z.quot (60 * done) (Z.max 1 total).

(** ** The orchestrator *)

(** The [for feat in ...] loop of [repair_geojson_no_gpd], from the
    features still to visit and the current [done] and [fixed_features];
    it returns the final [fixed_features]. *)
Fixpoint for_features (feats : list json) (total done : Z)
    (fixed_features : list json) : io (list json) :=
  match feats with
  | [] => mret fixed_features
  | feat :: feats' =>
      geom_dict ← lift (py_get feat "geometry" JNull);
      if truthy geom_dict then
        geom_dict ← lift (fix_geojson_structure geom_dict);
        (* the geometry dict was updated in place: [feat] holds it *)
        feat ← lift (py_setitem feat "geometry" geom_dict);
        match shape geom_dict with
        | Raise _ =>
            (* continue *)
            for_features feats' total done fixed_features
        | Ok geom =>
            geom_fixed ← lift (fix_polygon_validity geom);
            (* [if geom_fixed:] is false on [None] and on an empty
               geometry *)
            fixed_features ←
              match geom_fixed with
              | Some g =>
                  if is_empty g then mret fixed_features else
                  feat ← lift (py_setitem feat "geometry" (mapping g));
                  mret (fixed_features ++ [feat])
              | None => mret fixed_features
              end;
            let done := done + 1 in
            emit (ProgressSet (progress_of done total));;
            for_features feats' total done fixed_features
        end
      else
        let done := done + 1 in
        emit (ProgressSet (progress_of done total));;
        for_features feats' total done fixed_features
  end.

(** The body of the [try] of [repair_geojson_no_gpd]. *)
Definition repair_body (input_path output_path : string) : io unit :=
  emit (ProgressSet 10);;
  data ← lift (read_json input_path);
  emit (ProgressSet 30);;
  features ← lift (py_get data "features" (JList []));
  total ← lift (py_len features);
  features ← lift (py_get data "features" (JList []));
  feats ← lift (py_iter features);
  fixed_features ← for_features feats total 0 [];
  data ← lift (py_setitem data "features" (JList fixed_features));
  match open_write output_path with
  | Some e => lift (Raise e)
  | None => emit (JsonDump output_path data false 2)
  end;;
  emit (ProgressSet 100);;
  emit (ShowInfo "完成" ("修复成功：" +:+ newline +:+ output_path)).

(** [repair_geojson_no_gpd(input_path, output_path, progress_var)]: the
    calls the run makes. *)
Definition repair_geojson_no_gpd (input_path output_path : string) : list event :=
  (try_except (repair_body input_path output_path)
     (fun e => emit (ShowError "错误" (exn_str e)))).2.

End Repair.

(** ** A mock engine and mock files

    For running the pipeline on concrete documents. The mock engine parses
    a dict whose [type] is a string and whose [coordinates] is a list; a
    geometry is invalid when it carries the key [bowtie]; the zero buffer
    removes that key, unless the key [unfixable] makes it raise a
    topological error or the key [crash] another error; a geometry is empty
    when its [coordinates] is the empty list. *)

Module Mock.

Definition mock_shape (x : json) : res json :=
  match x with
  | JDict m =>
      match m !! "type", m !! "coordinates" with
      | Some (JStr _), Some (JList _) => Ok x
      | _, _ => Raise (Exn OtherError "cannot interpret geometry")
      end
  | _ => Raise (Exn OtherError "cannot interpret geometry")
  end.

Definition has_key (key : string) (x : json) : bool :=
  match x with
  | JDict m => bool_decide (is_Some (m !! key))
  | _ => false
  end.

Definition mock_buffer0 (g : json) : res json :=
  if has_key "unfixable" g then Raise (Exn TopologicalError "buffer failed") else
  if has_key "crash" g then Raise (Exn OtherError "engine failure") else
  match g with
  | JDict m => Ok (JDict (delete "bowtie" m))
  | _ => Ok g
  end.

Definition mock_is_empty (g : json) : bool :=
  match g with
  | JDict m => match m !! "coordinates" with Some (JList []) => true | _ => false end
  | _ => false
  end.

Definition mock_engine : Engine := {|
  geometry := json;
  shape := mock_shape;
  is_valid := fun g => negb (has_key "bowtie" g);
  buffer0 := mock_buffer0;
  mapping := fun g => g;
  is_empty := mock_is_empty;
|}.

(** Files whose input holds [doc] (or cannot be loaded) and whose output
    can be written. *)
Definition mock_files (doc : res json) : Files := {|
  read_json := fun _ => doc;
  open_write := fun _ => None;
|}.

Definition pt (x y : Z) : json := JList [JInt x; JInt y].
Definition ring : json := JList [pt 0 0; pt 1 0; pt 1 1; pt 0 0].

Definition polygon (coords : json) : json :=
  JDict {[ "type" := JStr "Polygon"; "coordinates" := coords ]}.

Definition feature (name : string) (geom : json) : json :=
  JDict {[ "type" := JStr "Feature";
           "properties" := JDict {[ "name" := JStr name ]};
           "geometry" := geom ]}.

Definition collection (feats : list json) : json :=
  JDict {[ "type" := JStr "FeatureCollection";
           "name" := JStr "地块";
           "features" := JList feats ]}.

(** A valid polygon, a feature without geometry, a geometry that cannot
    be parsed and a polygon given as a single ring. *)
Definition feature_b : gmap string json :=
  {[ "type" := JStr "Feature";
     "properties" := JDict {[ "name" := JStr "b" ]};
     "geometry" := JNull ]}.

Definition sample_feats : list json :=
  [feature "a" (polygon (JList [ring]));
   JDict feature_b;
   feature "c" (polygon (JStr "not-a-list"));
   feature "d" (polygon ring)].

Definition sample_data : gmap string json :=
  {[ "type" := JStr "FeatureCollection";
     "name" := JStr "地块";
     "features" := JList sample_feats ]}.

Definition sample : json := JDict sample_data.

(** The run on a document, read from [in.geojson] and written to
    [out.geojson]. *)
Definition run (doc : res json) : list event :=
  @repair_geojson_no_gpd mock_engine (mock_files doc) "in.geojson" "out.geojson".

End Mock.


(** ** Derived notions, for stating the properties *)

(** What [coordinates] becomes for a geometry of target depth [target]. *)
Definition adjust (target : nat) (coords : json) : res json :=
  if Nat.eqb (depth coords) (target - 1) then Ok (JList [coords])
  else if Nat.ltb target (depth coords) then py_first coords
  else Ok coords.

(** What the loop body does with one feature: it appends the feature with
    its repaired geometry ([Kept]), or appends nothing but counts the feature
    ([Dropped]), or leaves the body by [continue] before the count
    ([Skipped]). *)
Inductive verdict : Type :=
| Kept (feat : json)
| Dropped
| Skipped.

Definition kept (v : verdict) : option json :=
  match v with
  | Kept feat => Some feat
  | _ => None
  end.

Definition counted (v : verdict) : bool :=
  match v with
  | Skipped => false
  | _ => true
  end.

Section Visit.
Context {engine : Engine}.

(** The loop body of [for_features] on [feat], without the loop state. *)
Definition visit (feat : json) : res verdict :=
  geom_dict ← py_get feat "geometry" JNull;
  if truthy geom_dict then
    geom_dict ← fix_geojson_structure geom_dict;
    feat ← py_setitem feat "geometry" geom_dict;
    match shape geom_dict with
    | Raise _ => Ok Skipped
    | Ok geom =>
        geom_fixed ← fix_polygon_validity geom;
        match geom_fixed with
        | Some g =>
            if is_empty g then Ok Dropped else
            feat ← py_setitem feat "geometry" (mapping g);
            Ok (Kept feat)
        | None => Ok Dropped
        end
    end
  else Ok Dropped.

(** The feature the output holds for [feat], if any. *)
Definition survivor (feat : json) : option json :=
  match visit feat with
  | Ok v => kept v
  | Raise _ => None
  end.

(** The features the loop does not append, by the place of the body that
    leaves them out. [parsed feat] is what [shape] gives for the normalized
    geometry of [feat], when the body comes to call it. *)
Definition parsed (feat : json) : option (res geometry) :=
  match feat with
  | JDict fm =>
      let geom_dict := from_option id JNull (fm !! "geometry") in
      if truthy geom_dict then
        match fix_geojson_structure geom_dict with
        | Ok geom_dict' => Some (shape geom_dict')
        | Raise _ => None
        end
      else None
  | _ => None
  end.

(** [shape] raises: the body is left by [continue]. *)
Definition fails_to_parse (feat : json) : bool :=
  match parsed feat with
  | Some (Raise _) => true
  | _ => false
  end.

(** The repairer returns [None]. *)
Definition fails_to_repair (feat : json) : bool :=
  match parsed feat with
  | Some (Ok geom) =>
      match fix_polygon_validity geom with
      | Ok None => true
      | _ => false
      end
  | _ => false
  end.

(** The repairer returns an empty geometry, false in [if geom_fixed:]. *)
Definition repaired_empty (feat : json) : bool :=
  match parsed feat with
  | Some (Ok geom) =>
      match fix_polygon_validity geom with
      | Ok (Some g) => is_empty g
      | _ => false
      end
  | _ => false
  end.

(** The geometry is false in [if geom_dict:]: missing, [None], empty. *)
Definition without_geometry (feat : json) : bool :=
  match feat with
  | JDict fm => negb (truthy (from_option id JNull (fm !! "geometry")))
  | _ => false
  end.

(** The verdicts on the features up to the first one on which the loop
    body raises, and what it raises there. *)
Fixpoint visits (feats : list json) : list verdict * option exn :=
  match feats with
  | [] => ([], None)
  | feat :: feats' =>
      match visit feat with
      | Raise e => ([], Some e)
      | Ok v => (v :: (visits feats').1, (visits feats').2)
      end
  end.

(** The values the progress bar is set to while the loop meets
    [verdicts], from [done] features counted so far. *)
Fixpoint progress_after (verdicts : list verdict) (total done : Z) : list Z :=
  match verdicts with
  | [] => []
  | v :: verdicts' =>
      if counted v
      then progress_of (done + 1) total :: progress_after verdicts' total (done + 1)
      else progress_after verdicts' total done
  end.
End Visit.

(** What a trace shows. *)

Definition is_outcome (ev : event) : bool :=
  match ev with
  | ShowInfo _ _ | ShowError _ _ => true
  | _ => false
  end.

(** The run reported success. *)
Definition succeeded (trace : list event) : bool :=
  existsb (fun ev => match ev with ShowInfo _ _ => true | _ => false end) trace.

(** The values the progress sink received, in order. *)
Definition progress_sent (trace : list event) : list Z :=
  omap (fun ev => match ev with ProgressSet v => Some v | _ => None end) trace.

(** The documents written, in order. *)
Definition dumps (trace : list event) : list event :=
  List.filter (fun ev => match ev with JsonDump _ _ _ _ => true | _ => false end) trace.

(** The [features] of the documents written. *)
Definition dumped_features (trace : list event) : list json :=
  omap (fun ev =>
          match ev with
          | JsonDump _ (JDict m) _ _ => m !! "features"
          | _ => None
          end) trace.

(** The progress sequence as the specification words it: 10, 30, then
    [30 + floor(60 * i / n)] after the [i]-th of the [count] features, with
    [n] the count floored at 1, then 100. *)
Definition spec_progress (count : nat) : list Z :=
  [10; 30]
  ++ map (fun i => 30 + (60 * Z.of_nat i) `div` Z.max 1 (Z.of_nat count)) (seq 1 count)
  ++ [100].

(** The normalizer applied [n] times in a row, each time to what the time
    before returned. *)
Fixpoint normalize_times (n : nat) (geom_dict : json) : res json :=
  match n with
  | O => Ok geom_dict
  | S n' => geom_dict' ← fix_geojson_structure geom_dict; normalize_times n' geom_dict'
  end.

(** ** The form

    Of [create_gui], the three callbacks: [select_input] and [select_output]
    behind the file dialogs and [start] behind the start button. The form
    holds the text of its two entries. [strip] is [str.strip] and
    [path_exists] is [os.path.exists]; the path a file dialog returns (empty
    when the dialog is cancelled) is an argument. *)

Class Host : Type := {
  strip : string → string;
  path_exists : string → bool;
}.

Record form : Type := Form { entry_input : string; entry_output : string }.

(** What a callback calls: a warning box, [root.after(ms,
    repair_geojson_no_gpd, input_path, output_path, progress_var)], or a call
    of the kinds a run makes ([progress_var.set] among them). *)
Inductive form_call : Type :=
| ShowWarning (title message : string)
| After (ms : Z) (input_path output_path : string)
| Run (ev : event).

(** [select_input], when the dialog returns [path]: [entry_input.delete(0,
    END)] and [entry_input.insert(0, path)] leave [path] in the entry. *)
Definition select_input (path : string) (st : form) : form :=
  if truthy (JStr path)
  then {| entry_input := path; entry_output := entry_output st |}
  else st.

(** [select_output], when the dialog returns [path]. *)
Definition select_output (path : string) (st : form) : form :=
  if truthy (JStr path)
  then {| entry_input := entry_input st; entry_output := path |}
  else st.

Section Form.
Context {host : Host} {engine : Engine} {files : Files}.

(** [start()]. *)
Definition start (st : form) : list form_call :=
  let input_path := strip (entry_input st) in
  let output_path := strip (entry_output st) in
  if negb (path_exists input_path) then
    [ShowWarning "提示" "请选择正确的输入文件"]
  else if negb (truthy (JStr output_path)) then
    [ShowWarning "提示" "请设置输出路径"]
  else
    [Run (ProgressSet 0); After 100 input_path output_path].

(** What the main loop does with a call: it runs the scheduled repair. *)
Definition run_scheduled (call : form_call) : list form_call :=
  match call with
  | After _ input_path output_path =>
      Run <$> repair_geojson_no_gpd input_path output_path
  | _ => []
  end.

(** A click on the start button, with the run it schedules. *)
Definition click_start (st : form) : list form_call :=
  start st ++ (call ← start st; run_scheduled call).

End Form.

(** A dialog of the form: a warning, or the message of a run. *)
Definition is_dialog (call : form_call) : bool :=
  match call with
  | ShowWarning _ _ => true
  | Run ev => is_outcome ev
  | After _ _ _ => false
  end.

(** The values the progress bar is set to by the calls. *)
Definition progress_shown (calls : list form_call) : list Z :=
  omap (fun call => match call with Run (ProgressSet v) => Some v | _ => None end) calls.

(** The choices made in the two file dialogs, in order. *)
Inductive choice : Type :=
| ChooseInput (path : string)
| ChooseOutput (path : string).

Definition choose (st : form) (c : choice) : form :=
  match c with
  | ChooseInput path => select_input path st
  | ChooseOutput path => select_output path st
  end.

(** The last path chosen in the input dialog, if one was. *)
Definition last_input (choices : list choice) : option string :=
  last (omap (fun c => match c with
                       | ChooseInput path => if truthy (JStr path) then Some path else None
                       | _ => None
                       end) choices).

Definition last_output (choices : list choice) : option string :=
  last (omap (fun c => match c with
                       | ChooseOutput path => if truthy (JStr path) then Some path else None
                       | _ => None
                       end) choices).


(** The mock engine with a zero buffer that fails the way GEOS does: on a
    geometry with the key [unfixable] it raises a [TopologyException] as a
    [GEOSException]. *)
Module MockGeos.



End MockGeos.

(** A mock host: [strip] removes the spaces around, and one file exists. *)
Module MockHost.

Fixpoint lstrip (cs : list Ascii.ascii) : list Ascii.ascii :=
  match cs with
  | c :: cs' => if Ascii.eqb c (Ascii.ascii_of_nat 32) then lstrip cs' else cs
  | [] => []
  end.

Definition mock_strip (s : string) : string :=
  String.string_of_list_ascii
    (rev (lstrip (rev (lstrip (String.list_ascii_of_string s))))).

Definition mock_host : Host := {|
  strip := mock_strip;
  path_exists := fun path => String.eqb path "in.geojson";
|}.

(** Files whose output cannot be written. *)
Definition read_only_files (doc : res json) : Files := {|
  read_json := fun _ => doc;
  open_write := fun _ =>
    Some (Exn OtherError "[Errno 13] Permission denied: 'out.geojson'");
|}.

End MockHost.

(** * Properties *)

(** ** The depth of coordinates *)

Lemma depth_cons (x : json) (l : list json) : depth (JList (x :: l)) = S (depth x).
Proof. reflexivity. Qed.

(** A positive depth is the depth of a non-empty list. *)
Lemma depth_pos_inv (coords : json) :
  (0 < depth coords)%nat →
  ∃ first rest, coords = JList (first :: rest) ∧ depth coords = S (depth first).
Proof.
  destruct coords as [| | | | |l|]; simpl; try lia.
  destruct l as [|first rest]; simpl; [lia|]. eauto.
Qed.

Lemma py_first_depth_pos (coords : json) :
  (0 < depth coords)%nat →
  ∃ first, py_first coords = Ok first ∧ depth coords = S (depth first).
Proof.
  intros Hd. destruct (depth_pos_inv coords Hd) as (first & rest & -> & Hdepth).
  exists first. split; [reflexivity | exact Hdepth].
Qed.

(** ** The normalizer on a dict *)

Lemma adjust_total (target : nat) (coords : json) :
  (0 < target)%nat → ∃ coords', adjust target coords = Ok coords'.
Proof.
  intros Ht. unfold adjust.
  destruct (Nat.eqb_spec (depth coords) (target - 1)); [eauto|].
  destruct (Nat.ltb_spec target (depth coords)) as [Hlt|]; [|eauto].
  destruct (py_first_depth_pos coords) as (first & -> & _); [lia | eauto].
Qed.

Lemma fix_geojson_structure_dict (m : gmap string json) :
  fix_geojson_structure (JDict m) =
    match m !! "type", m !! "coordinates" with
    | Some gtype, Some coords =>
        if py_eq_str gtype "Polygon" then
          coords' ← adjust 3 coords; Ok (JDict (<["coordinates" := coords']> m))
        else if py_eq_str gtype "MultiPolygon" then
          coords' ← adjust 4 coords; Ok (JDict (<["coordinates" := coords']> m))
        else Ok (JDict m)
    | _, _ => Ok (JDict m)
    end.
Proof.
  unfold fix_geojson_structure.
  destruct (truthy (JDict m)) eqn:Ht; simpl negb; cbv iota.
  2:{ simpl in Ht. apply negb_false_iff, bool_decide_eq_true in Ht. subst m.
      by rewrite !lookup_empty. }
  unfold py_in, py_getitem, py_setitem, adjust. cbn.
  destruct (m !! "type") as [gtype|]; cbn; [|reflexivity].
  destruct (m !! "coordinates") as [coords|]; cbn; [|reflexivity].
  reflexivity.
Qed.

(** C2: on a geometry dict that has both [type] and [coordinates], for
    [type] "Polygon" the normalizer wraps coordinates of measured depth 2
    into a one-element list (depth 3), replaces coordinates of depth above 3
    by their first element (one level less) and leaves coordinates of depth 3
    as they are; for "MultiPolygon" it does the same one level higher (wrap
    at 3, first element above 4, nothing at 4). *)
Theorem fix_geojson_structure_depth_policy
    (m : gmap string json) (gtype coords : json) :
  m !! "type" = Some gtype →
  m !! "coordinates" = Some coords →
  (gtype = JStr "Polygon" →
     (depth coords = 2%nat →
        fix_geojson_structure (JDict m)
          = Ok (JDict (<["coordinates" := JList [coords]]> m))
        ∧ depth (JList [coords]) = 3%nat)
     ∧ ((3 < depth coords)%nat →
        ∃ first rest, coords = JList (first :: rest)
          ∧ fix_geojson_structure (JDict m)
              = Ok (JDict (<["coordinates" := first]> m))
          ∧ S (depth first) = depth coords)
     ∧ (depth coords = 3%nat →
        fix_geojson_structure (JDict m) = Ok (JDict m)))
  ∧ (gtype = JStr "MultiPolygon" →
     (depth coords = 3%nat →
        fix_geojson_structure (JDict m)
          = Ok (JDict (<["coordinates" := JList [coords]]> m))
        ∧ depth (JList [coords]) = 4%nat)
     ∧ ((4 < depth coords)%nat →
        ∃ first rest, coords = JList (first :: rest)
          ∧ fix_geojson_structure (JDict m)
              = Ok (JDict (<["coordinates" := first]> m))
          ∧ S (depth first) = depth coords)
     ∧ (depth coords = 4%nat →
        fix_geojson_structure (JDict m) = Ok (JDict m))).
Proof.
  intros Hty Hco.
  rewrite fix_geojson_structure_dict, Hty, Hco.
  split; intros ->; cbn [py_eq_str String.eqb Ascii.eqb Bool.eqb];
    unfold adjust; (split; [|split]).
  - intros Hd. rewrite depth_cons, Hd. by split.
  - intros Hd. destruct (depth_pos_inv coords) as (first & rest & -> & E); [lia|].
    exists first, rest. rewrite E in *. split; [done|]. split; [|done].
    destruct (Nat.eqb_spec (S (depth first)) (3 - 1)); [lia|].
    destruct (Nat.ltb_spec 3 (S (depth first))); [done | lia].
  - intros Hd. rewrite Hd. cbn. by rewrite insert_id.
  - intros Hd. rewrite depth_cons, Hd. by split.
  - intros Hd. destruct (depth_pos_inv coords) as (first & rest & -> & E); [lia|].
    exists first, rest. rewrite E in *. split; [done|]. split; [|done].
    destruct (Nat.eqb_spec (S (depth first)) (4 - 1)); [lia|].
    destruct (Nat.ltb_spec 4 (S (depth first))); [done | lia].
  - intros Hd. rewrite Hd. cbn. by rewrite insert_id.
Qed.

(** A single ring given as the coordinates of a Polygon is wrapped, and
    coordinates nested one level too deep are replaced by their first
    element. *)
Lemma fix_geojson_structure_depth_policy_witness :
  (fix_geojson_structure (Mock.polygon Mock.ring)
     = Ok (Mock.polygon (JList [Mock.ring]))
   ∧ depth (JList [Mock.ring]) = 3%nat)
  ∧ fix_geojson_structure (Mock.polygon (JList [JList [Mock.ring]]))
     = Ok (Mock.polygon (JList [Mock.ring])).
Proof.
  split.
  - destruct (fix_geojson_structure_depth_policy
                {[ "type" := JStr "Polygon"; "coordinates" := Mock.ring ]}
                (JStr "Polygon") Mock.ring) as [HPolygon _];
      [vm_compute; reflexivity | vm_compute; reflexivity |].
    destruct (HPolygon eq_refl) as [Hwrap _].
    destruct (Hwrap eq_refl) as [Hfix Hdepth].
    split; [|exact Hdepth].
    unfold Mock.polygon. rewrite Hfix. vm_compute. reflexivity.
  - destruct (fix_geojson_structure_depth_policy
                {[ "type" := JStr "Polygon";
                   "coordinates" := JList [JList [Mock.ring]] ]}
                (JStr "Polygon") (JList [JList [Mock.ring]])) as [HPolygon _];
      [vm_compute; reflexivity | vm_compute; reflexivity |].
    destruct (HPolygon eq_refl) as (_ & Hunwrap & _).
    destruct Hunwrap as (first & rest & Hcoords & Hfix & _); [simpl; lia|].
    injection Hcoords as <- <-.
    unfold Mock.polygon. rewrite Hfix. vm_compute. reflexivity.
Defined.

(** C5, as the code computes it: [depth([]) == 0], [depth([[1,2]]) == 2] and
    [depth([[[1,2]]]) == 3]; every list level counts, the innermost one
    too. *)
Theorem depth_examples :
  depth (JList []) = 0%nat
  ∧ depth (JList [JList [JInt 1; JInt 2]]) = 2%nat
  ∧ depth (JList [JList [JList [JInt 1; JInt 2]]]) = 3%nat.
Proof. repeat split. Qed.

(** The equations of C5 as the spec gives them do not hold. *)
Lemma depth_examples_as_stated_fail :
  ¬ (depth (JList []) = 0%nat
     ∧ depth (JList [JList [JInt 1; JInt 2]]) = 1%nat
     ∧ depth (JList [JList [JList [JInt 1; JInt 2]]]) = 2%nat).
Proof. intros (_ & H & _). discriminate H. Qed.











(** ** The validity repairer *)




(** ** Computations and their traces *)

Lemma bind_emit {A : Type} (ev : event) (f : unit → io A) :
  (emit ev ≫= f) = ((f tt).1, ev :: (f tt).2).
Proof. reflexivity. Qed.

Lemma bind_lift_ok {A B : Type} (a : A) (f : A → io B) :
  (lift (Ok a) ≫= f) = f a.
Proof. unfold mbind, io_bind, lift; simpl. by destruct (f a). Qed.

Lemma bind_lift_raise {A B : Type} (e : exn) (f : A → io B) :
  (lift (Raise e : res A) ≫= f) = (Raise e, []).
Proof. reflexivity. Qed.

Lemma bind_mret {A B : Type} (a : A) (f : A → io B) :
  (mret a ≫= f) = f a.
Proof. unfold mbind, io_bind, mret, io_ret; simpl. by destruct (f a). Qed.

Lemma bind_traced_ok {A B : Type} (a : A) (trace : list event) (f : A → io B) :
  ((Ok a, trace) ≫= f) = ((f a).1, trace ++ (f a).2).
Proof. reflexivity. Qed.

Lemma bind_lift {A B : Type} (r : res A) (f : A → io B) :
  (lift r ≫= f) = match r with Ok a => f a | Raise e => (Raise e, []) end.
Proof. destruct r; [apply bind_lift_ok | apply bind_lift_raise]. Qed.

(** ** The loop, one feature at a time *)

Section Loop.
Context {engine : Engine}.

Lemma for_features_cons (feat : json) (feats : list json) (total done : Z)
    (fixed_features : list json) :
  for_features (feat :: feats) total done fixed_features =
    match visit feat with
    | Raise e => (Raise e, [])
    | Ok Skipped => for_features feats total done fixed_features
    | Ok Dropped =>
        emit (ProgressSet (progress_of (done + 1) total));;
        for_features feats total (done + 1) fixed_features
    | Ok (Kept feat') =>
        emit (ProgressSet (progress_of (done + 1) total));;
        for_features feats total (done + 1) (fixed_features ++ [feat'])
    end.
Proof.
  cbn [for_features]. unfold visit.
  rewrite bind_lift.
  destruct (py_get feat "geometry" JNull) as [geom_dict|e];
    cbn [mbind res_bind]; [|reflexivity].
  destruct (truthy geom_dict); [|reflexivity].
  rewrite bind_lift.
  destruct (fix_geojson_structure geom_dict) as [geom_dict'|e];
    cbn [mbind res_bind]; [|reflexivity].
  rewrite bind_lift.
  destruct (py_setitem feat "geometry" geom_dict') as [feat1|e];
    cbn [mbind res_bind]; [|reflexivity].
  destruct (shape geom_dict') as [geom|e]; [|reflexivity].
  rewrite bind_lift.
  destruct (fix_polygon_validity geom) as [[g|]|e];
    cbn [mbind res_bind]; [| |reflexivity].
  - destruct (is_empty g).
    + by rewrite bind_mret.
    + rewrite bind_lift.
      destruct (py_setitem feat1 "geometry" (mapping g)) as [feat2|e];
        cbn [mbind res_bind]; [|reflexivity].
      by rewrite !bind_mret.
  - by rewrite bind_mret.
Qed.

(** The loop in closed form: the survivors in order after the features
    already kept, unless a feature makes the body raise; and one progress
    value for each feature counted before that. *)
Lemma for_features_visits (feats : list json) (total done : Z)
    (fixed_features : list json) :
  for_features feats total done fixed_features =
    (match (visits feats).2 with
     | None => Ok (fixed_features ++ omap kept (visits feats).1)
     | Some e => Raise e
     end,
     ProgressSet <$> progress_after (visits feats).1 total done).
Proof.
  revert done fixed_features.
  induction feats as [|feat feats IH]; intros done fixed_features.
  { cbn. by rewrite app_nil_r. }
  rewrite for_features_cons. cbn [visits].
  destruct (visit feat) as [[feat'| |]|e]; cbn [fst snd counted progress_after omap kept].
  - rewrite bind_emit, IH. cbn [fst snd fmap list_fmap].
    destruct ((visits feats).2); [done|]. by rewrite <- app_assoc.
  - by rewrite bind_emit, IH.
  - by rewrite IH.
  - reflexivity.
Qed.

Lemma visits_length (feats : list json) :
  (length (visits feats).1 ≤ length feats)%nat.
Proof.
  induction feats as [|feat feats IH]; cbn; [lia|].
  destruct (visit feat); cbn; lia.
Qed.

Lemma visits_all (feats : list json) :
  (visits feats).2 = None →
  Forall2 (fun feat v => visit feat = Ok v) feats (visits feats).1
  ∧ omap kept (visits feats).1 = omap survivor feats.
Proof.
  induction feats as [|feat feats IH]; cbn; [by split|].
  unfold survivor. destruct (visit feat) as [v|e] eqn:Hv; cbn; [|done].
  intros Hnone. destruct (IH Hnone) as [Hall Hkept]. split.
  - by constructor.
  - by rewrite Hkept.
Qed.

End Loop.

(** ** The run in closed form *)

Section Run.
Context {engine : Engine} {files : Files}.

Lemma repair_body_eq (input_path output_path : string) :
  repair_body input_path output_path =
    match read_json input_path with
    | Raise e => (Raise e, [ProgressSet 10])
    | Ok data =>
    match py_get data "features" (JList []) with
    | Raise e => (Raise e, [ProgressSet 10; ProgressSet 30])
    | Ok features =>
    match py_len features with
    | Raise e => (Raise e, [ProgressSet 10; ProgressSet 30])
    | Ok total =>
    match py_iter features with
    | Raise e => (Raise e, [ProgressSet 10; ProgressSet 30])
    | Ok feats =>
    let progress := ProgressSet <$> progress_after (visits feats).1 total 0 in
    match (visits feats).2 with
    | Some e => (Raise e, ProgressSet 10 :: ProgressSet 30 :: progress)
    | None =>
    match py_setitem data "features" (JList (omap kept (visits feats).1)) with
    | Raise e => (Raise e, ProgressSet 10 :: ProgressSet 30 :: progress)
    | Ok data' =>
    match open_write output_path with
    | Some e => (Raise e, ProgressSet 10 :: ProgressSet 30 :: progress)
    | None =>
        (Ok tt,
         ProgressSet 10 :: ProgressSet 30 :: progress
         ++ [JsonDump output_path data' false 2; ProgressSet 100;
             ShowInfo "完成" ("修复成功：" +:+ newline +:+ output_path)])
    end end end end end end end.
Proof.
  unfold repair_body.
  rewrite bind_emit, bind_lift.
  destruct (read_json input_path) as [data|e]; [|reflexivity].
  rewrite bind_emit, bind_lift.
  destruct (py_get data "features" (JList [])) as [features|e]; [|reflexivity].
  rewrite bind_lift.
  destruct (py_len features) as [total|e]; [|reflexivity].
  rewrite bind_lift_ok, bind_lift.
  destruct (py_iter features) as [feats|e]; [|reflexivity].
  rewrite for_features_visits.
  destruct ((visits feats).2) as [e|]; [reflexivity|].
  rewrite bind_traced_ok, bind_lift.
  destruct (py_setitem data "features" _) as [data'|e]; cbn [fst snd];
    [|by rewrite app_nil_r].
  destruct (open_write output_path) as [e|].
  - rewrite bind_lift_raise. cbn [fst snd]. by rewrite app_nil_r.
  - reflexivity.
Qed.

Lemma repair_geojson_no_gpd_eq (input_path output_path : string) :
  repair_geojson_no_gpd input_path output_path =
    match (repair_body input_path output_path).1 with
    | Ok _ => (repair_body input_path output_path).2
    | Raise e =>
        (repair_body input_path output_path).2 ++ [ShowError "错误" (exn_str e)]
    end.
Proof.
  unfold repair_geojson_no_gpd, try_except.
  by destruct ((repair_body input_path output_path).1).
Qed.

Lemma succeeded_progress (values : list Z) (trace : list event) :
  succeeded ((ProgressSet <$> values) ++ trace) = succeeded trace.
Proof. induction values as [|v values IH]; [done | exact IH]. Qed.

Lemma not_succeeded_raise (values : list Z) (title message : string) :
  succeeded
    ((ProgressSet 10 :: ProgressSet 30 :: (ProgressSet <$> values))
     ++ [ShowError title message]) = false.
Proof. cbn [app succeeded existsb orb]. apply (succeeded_progress values). Qed.

(** A run that reports success loaded a dict, met no feature on which the
    loop body raises, could write, and made exactly these calls. *)
Lemma repair_succeeded_inv (input_path output_path : string) :
  succeeded (repair_geojson_no_gpd input_path output_path) = true →
  ∃ (data : gmap string json) (total : Z) (feats : list json),
    read_json input_path = Ok (JDict data)
    ∧ py_len (from_option id (JList []) (data !! "features")) = Ok total
    ∧ py_iter (from_option id (JList []) (data !! "features")) = Ok feats
    ∧ (visits feats).2 = None
    ∧ open_write output_path = None
    ∧ repair_geojson_no_gpd input_path output_path =
        ProgressSet 10 :: ProgressSet 30
        :: (ProgressSet <$> progress_after (visits feats).1 total 0)
        ++ [JsonDump output_path
              (JDict (<["features" := JList (omap survivor feats)]> data)) false 2;
            ProgressSet 100;
            ShowInfo "完成" ("修复成功：" +:+ newline +:+ output_path)].
Proof.
  rewrite repair_geojson_no_gpd_eq, repair_body_eq.
  destruct (read_json input_path) as [data|e]; [|discriminate].
  destruct (py_get data "features" (JList [])) as [features|e] eqn:Hget;
    [|discriminate].
  destruct (py_len features) as [total|e] eqn:Hlen; [|discriminate].
  destruct (py_iter features) as [feats|e] eqn:Hiter; [|discriminate].
  cbv zeta.
  destruct ((visits feats).2) as [e|] eqn:Hvisits.
  { cbn [fst snd]. intros H.
    by rewrite (not_succeeded_raise (progress_after (visits feats).1 total 0)) in H. }
  destruct (py_setitem data "features" _) as [data'|e] eqn:Hset.
  2:{ cbn [fst snd]. intros H.
      by rewrite (not_succeeded_raise (progress_after (visits feats).1 total 0)) in H. }
  destruct (open_write output_path) as [e|] eqn:Hopen.
  { cbn [fst snd]. intros H.
    by rewrite (not_succeeded_raise (progress_after (visits feats).1 total 0)) in H. }
  cbn [fst snd]. intros _.
  destruct data as [| | | | | |data]; try discriminate Hget.
  cbn in Hget, Hset. injection Hget as <-. injection Hset as <-.
  exists data, total, feats.
  destruct (visits_all feats Hvisits) as [_ <-].
  repeat split; done.
Qed.

End Run.

(** ** The run *)

Lemma dumped_features_progress (values : list Z) (trace : list event) :
  dumped_features ((ProgressSet <$> values) ++ trace) = dumped_features trace.
Proof. induction values as [|v values IH]; [done | exact IH]. Qed.

Lemma dumps_progress (values : list Z) (trace : list event) :
  dumps ((ProgressSet <$> values) ++ trace) = dumps trace.
Proof. induction values as [|v values IH]; [done | exact IH]. Qed.

Lemma outcomes_progress (values : list Z) (trace : list event) :
  List.filter is_outcome ((ProgressSet <$> values) ++ trace)
  = List.filter is_outcome trace.
Proof. induction values as [|v values IH]; [done | exact IH]. Qed.

Section Survivors.
Context {engine : Engine}.

Lemma visit_no_geometry (feat : gmap string json) :
  feat !! "geometry" = None ∨ feat !! "geometry" = Some JNull →
  visit (JDict feat) = Ok Dropped.
Proof. unfold visit. cbn. by intros [-> | ->]. Qed.

(** A feature on which the body does not raise survives or is in exactly
    one of the four classes. *)
Lemma visit_one_class (feat : json) (v : verdict) :
  visit feat = Ok v →
  (length (omap survivor [feat])
   + (Nat.b2n (fails_to_parse feat) + Nat.b2n (fails_to_repair feat)
      + Nat.b2n (without_geometry feat) + Nat.b2n (repaired_empty feat))
   = 1)%nat.
Proof.
  unfold survivor, fails_to_parse, fails_to_repair, repaired_empty,
    without_geometry, parsed, visit.
  destruct feat as [| | | | | |fm]; try discriminate.
  cbn [py_get mbind res_bind omap list_omap]. cbv zeta.
  destruct (truthy (from_option id JNull (fm !! "geometry"))); [|by intros [= <-]].
  destruct (fix_geojson_structure _) as [geom_dict'|e];
    cbn [mbind res_bind py_setitem negb]; [|discriminate].
  destruct (shape geom_dict') as [geom|e]; [|by intros [= <-]].
  destruct (fix_polygon_validity geom) as [[g|]|e];
    cbn [mbind res_bind]; [| by intros [= <-] | discriminate].
  destruct (is_empty g); cbn [mbind res_bind]; by intros [= <-].
Qed.

Lemma survivors_count (feats : list json) :
  Forall (fun feat => ∃ v, visit feat = Ok v) feats →
  (length (omap survivor feats)
   + (length (List.filter fails_to_parse feats)
      + length (List.filter fails_to_repair feats)
      + length (List.filter without_geometry feats)
      + length (List.filter repaired_empty feats))
   = length feats)%nat.
Proof.
  induction 1 as [|feat feats [v Hv] _ IH]; [done|].
  pose proof (visit_one_class feat v Hv) as Hone.
  cbn [omap list_omap List.filter] in *.
  destruct (survivor feat), (fails_to_parse feat), (fails_to_repair feat),
    (without_geometry feat), (repaired_empty feat);
    cbn [length app Nat.b2n] in *; lia.
Qed.

Lemma survivors_delete (feats : list json) (k : nat) (feat : json) :
  feats !! k = Some feat → survivor feat = None →
  omap survivor feats = omap survivor (delete k feats).
Proof.
  intros Hk Hnone.
  rewrite <- (take_drop_middle feats k feat Hk) at 1.
  rewrite delete_take_drop, !omap_app. cbn. by rewrite Hnone.
Qed.
End Survivors.

Section RunProperties.
Context {engine : Engine} {files : Files}.

Lemma repair_succeeded_dumped_features (input_path output_path : string)
    (data : gmap string json) (feats : list json) :
  succeeded (repair_geojson_no_gpd input_path output_path) = true →
  read_json input_path = Ok (JDict data) →
  py_iter (from_option id (JList []) (data !! "features")) = Ok feats →
  dumped_features (repair_geojson_no_gpd input_path output_path)
  = [JList (omap survivor feats)].
Proof.
  intros Hsucc Hread Hiter.
  destruct (repair_succeeded_inv _ _ Hsucc)
    as (data' & total & feats' & Hread' & _ & Hiter' & _ & _ & ->).
  rewrite Hread in Hread'. injection Hread' as <-.
  rewrite Hiter in Hiter'. injection Hiter' as <-.
  cbn [dumped_features omap list_omap].
  rewrite (dumped_features_progress (progress_after (visits feats).1 total 0)).
  cbn. by rewrite lookup_insert_eq.
Qed.

(** C1, amended: a feature whose [geometry] is absent or null is not
    appended to the survivors. The loop counts it, sets the progress value
    and goes on with the survivor list as it was; on a successful run the
    output features are those of the input without it. *)
Theorem no_geometry_feature_is_dropped (input_path output_path : string)
    (feat : gmap string json) :
  feat !! "geometry" = None ∨ feat !! "geometry" = Some JNull →
  (∀ (feats : list json) (total done : Z) (fixed_features : list json),
     for_features (JDict feat :: feats) total done fixed_features =
       (emit (ProgressSet (progress_of (done + 1) total));;
        for_features feats total (done + 1) fixed_features))
  ∧ (∀ (data : gmap string json) (feats : list json) (k : nat),
       succeeded (repair_geojson_no_gpd input_path output_path) = true →
       read_json input_path = Ok (JDict data) →
       py_iter (from_option id (JList []) (data !! "features")) = Ok feats →
       feats !! k = Some (JDict feat) →
       dumped_features (repair_geojson_no_gpd input_path output_path)
       = [JList (omap survivor (delete k feats))]).
Proof.
  intros Hgeom. split.
  - intros feats total done fixed_features.
    by rewrite for_features_cons, (visit_no_geometry feat Hgeom).
  - intros data feats k Hsucc Hread Hiter Hk.
    rewrite (repair_succeeded_dumped_features _ _ data feats Hsucc Hread Hiter).
    rewrite (survivors_delete feats k (JDict feat) Hk); [done|].
    unfold survivor. by rewrite (visit_no_geometry feat Hgeom).
Qed.

(** C4, amended: on a successful run the features written are the
    survivors of the input features, in the order of the input; a feature
    whose normalized geometry does not parse, or whose parsed geometry the
    repairer gives up on, raises nothing and has no survivor; and the number
    of features written is the number of input features less those whose
    geometry does not parse, those the repairer gives up on, those without
    geometry and those whose repaired geometry is empty. *)
Theorem repair_output_is_survivors (input_path output_path : string) :
  succeeded (repair_geojson_no_gpd input_path output_path) = true →
  ∃ (data : gmap string json) (feats : list json),
    read_json input_path = Ok (JDict data)
    ∧ py_iter (from_option id (JList []) (data !! "features")) = Ok feats
    ∧ dumped_features (repair_geojson_no_gpd input_path output_path)
      = [JList (omap survivor feats)]
    ∧ (∀ (feat : gmap string json) (geom_dict geom_dict' : json),
         feat !! "geometry" = Some geom_dict →
         truthy geom_dict = true →
         fix_geojson_structure geom_dict = Ok geom_dict' →
         ((∃ e, shape geom_dict' = Raise e) →
            visit (JDict feat) = Ok Skipped ∧ survivor (JDict feat) = None)
         ∧ (∀ geom, shape geom_dict' = Ok geom →
              fix_polygon_validity geom = Ok None →
              visit (JDict feat) = Ok Dropped ∧ survivor (JDict feat) = None))
    ∧ length (omap survivor feats)
      = (length feats
         - (length (List.filter fails_to_parse feats)
            + length (List.filter fails_to_repair feats)
            + length (List.filter without_geometry feats)
            + length (List.filter repaired_empty feats)))%nat.
Proof.
  intros Hsucc.
  destruct (repair_succeeded_inv _ _ Hsucc)
    as (data & total & feats & Hread & _ & Hiter & Hvisits & _ & _).
  exists data, feats. split; [done|]. split; [done|]. split; [|split].
  - by apply repair_succeeded_dumped_features with data.
  - intros feat geom_dict geom_dict' Hgeom Htruthy Hfix.
    assert (Hvisit : visit (JDict feat) =
              match shape geom_dict' with
              | Raise _ => Ok Skipped
              | Ok geom =>
                  geom_fixed ← fix_polygon_validity geom;
                  match geom_fixed with
                  | Some g =>
                      if is_empty g then Ok Dropped else
                      Ok (Kept (JDict (<["geometry" := mapping g]>
                                         (<["geometry" := geom_dict']> feat))))
                  | None => Ok Dropped
                  end
              end).
    { unfold visit. cbn. rewrite Hgeom. cbn. rewrite Htruthy, Hfix. cbn.
      destruct (shape geom_dict'); [|done].
      destruct (fix_polygon_validity _) as [[g|]|]; cbn; [|done..].
      by destruct (is_empty g). }
    unfold survivor. rewrite Hvisit. split.
    + by intros [e ->].
    + by intros geom -> ->.
  - destruct (visits_all feats Hvisits) as [Hall _].
    assert (Hok : Forall (fun feat => ∃ v, visit feat = Ok v) feats).
    { clear -Hall. induction Hall; constructor; eauto. }
    pose proof (survivors_count feats Hok). lia.
Qed.

(** C9: on a successful run one document is written, to the output path:
    the input document with its [features] set to the survivor list and
    every other top-level field as it was, dumped with [indent=2] and
    [ensure_ascii=False]. *)
Theorem repair_output_document (input_path output_path : string) :
  succeeded (repair_geojson_no_gpd input_path output_path) = true →
  ∃ (data : gmap string json) (fixed_features : list json),
    read_json input_path = Ok (JDict data)
    ∧ dumps (repair_geojson_no_gpd input_path output_path)
      = [JsonDump output_path
           (JDict (<["features" := JList fixed_features]> data)) false 2]
    ∧ ∀ key : string,
        key ≠ "features" →
        (<["features" := JList fixed_features]> data) !! key = data !! key.
Proof.
  intros Hsucc.
  destruct (repair_succeeded_inv _ _ Hsucc)
    as (data & total & feats & Hread & _ & _ & _ & _ & ->).
  exists data, (omap survivor feats). split; [done|]. split.
  - exact (dumps_progress (progress_after (visits feats).1 total 0) _).
  - intros key Hkey. by rewrite lookup_insert_ne.
Qed.

(** C7: when the input cannot be loaded the run stops there: the progress
    value is 10, an error is shown with the message of the exception, and
    nothing is written; and every run shows exactly one message, a success
    or an error. *)
Theorem repair_load_failure_and_one_outcome (input_path output_path : string) :
  (∀ e : exn,
     read_json input_path = Raise e →
     repair_geojson_no_gpd input_path output_path
       = [ProgressSet 10; ShowError "错误" (exn_str e)]
     ∧ dumps (repair_geojson_no_gpd input_path output_path) = [])
  ∧ length (List.filter is_outcome (repair_geojson_no_gpd input_path output_path))
    = 1%nat.
Proof.
  rewrite repair_geojson_no_gpd_eq, repair_body_eq. split.
  - intros e ->. by split.
  - destruct (read_json input_path) as [data|e]; [|done].
    destruct (py_get data "features" (JList [])) as [features|e]; [|done].
    destruct (py_len features) as [total|e]; [|done].
    destruct (py_iter features) as [feats|e]; [|done].
    cbv zeta.
    destruct ((visits feats).2) as [e|];
      [|destruct (py_setitem data "features" _) as [data'|e];
        [destruct (open_write output_path) as [e|]|]];
      cbn [fst snd app List.filter is_outcome];
      try rewrite <- app_assoc;
      by rewrite (outcomes_progress (progress_after (visits feats).1 total 0)).
Qed.

End RunProperties.

(** ** Runs on the mock engine *)


(** On the sample, the feature without geometry is not among the features
    written: they are the survivors of the three others. *)
Lemma no_geometry_feature_is_dropped_witness :
  Mock.feature_b !! "geometry" = Some JNull
  ∧ dumped_features (Mock.run (Ok Mock.sample))
    = [JList (omap (@survivor Mock.mock_engine) (delete 1%nat Mock.sample_feats))].
Proof.
  split; [vm_compute; reflexivity|].
  destruct (@no_geometry_feature_is_dropped Mock.mock_engine
              (Mock.mock_files (Ok Mock.sample)) "in.geojson" "out.geojson"
              Mock.feature_b) as [_ Hrun].
  { right. vm_compute. reflexivity. }
  apply (Hrun Mock.sample_data Mock.sample_feats 1%nat).
  - vm_compute. reflexivity.
  - reflexivity.
  - vm_compute. reflexivity.
  - reflexivity.
Defined.

(** C1 as stated fails: of a collection whose one feature has a null
    geometry, nothing is written. *)
Lemma null_geometry_feature_not_preserved :
  succeeded (Mock.run (Ok (Mock.collection [Mock.feature "b" JNull]))) = true
  ∧ dumped_features (Mock.run (Ok (Mock.collection [Mock.feature "b" JNull])))
    = [JList []].
Proof. split; vm_compute; reflexivity. Qed.

(** On the sample, the features written are the survivors of its four
    features, two of them: one feature has no geometry and one has a
    geometry that does not parse and is left by [continue]. *)
Lemma repair_output_is_survivors_witness :
  (∃ (data : gmap string json) (feats : list json),
     Ok Mock.sample = Ok (JDict data)
     ∧ py_iter (from_option id (JList []) (data !! "features")) = Ok feats
     ∧ dumped_features (Mock.run (Ok Mock.sample))
       = [JList (omap (@survivor Mock.mock_engine) feats)]
     ∧ length (omap (@survivor Mock.mock_engine) feats)
       = (length feats
          - (length (List.filter (@fails_to_parse Mock.mock_engine) feats)
             + length (List.filter (@fails_to_repair Mock.mock_engine) feats)
             + length (List.filter without_geometry feats)
             + length (List.filter (@repaired_empty Mock.mock_engine) feats)))%nat)
  ∧ @visit Mock.mock_engine
      (Mock.feature "c" (Mock.polygon (JStr "not-a-list"))) = Ok Skipped.
Proof.
  assert (Hsucc : succeeded (Mock.run (Ok Mock.sample)) = true)
    by (vm_compute; reflexivity).
  destruct (@repair_output_is_survivors Mock.mock_engine
              (Mock.mock_files (Ok Mock.sample)) "in.geojson" "out.geojson" Hsucc)
    as (data & feats & Hread & Hiter & Hdump & Hdrop & Hcount).
  split.
  - exists data, feats. repeat split; assumption.
  - destruct (Hdrop {[ "type" := JStr "Feature";
                       "properties" := JDict {[ "name" := JStr "c" ]};
                       "geometry" := Mock.polygon (JStr "not-a-list") ]}
                (Mock.polygon (JStr "not-a-list"))
                (Mock.polygon (JStr "not-a-list")))
      as [Hskip _]; [vm_compute; reflexivity..|].
    apply Hskip.
    exists (Exn OtherError "cannot interpret geometry"). vm_compute; reflexivity.
Defined.

(** C4 as stated fails on the count: of a valid polygon and a feature
    without geometry, no geometry fails to parse and the repairer gives up
    on none, yet one feature is written, not two. *)
Lemma output_count_not_input_less_failures :
  let feats := [Mock.feature "a" (Mock.polygon (JList [Mock.ring]));
                JDict Mock.feature_b] in
  succeeded (Mock.run (Ok (Mock.collection feats))) = true
  ∧ dumped_features (Mock.run (Ok (Mock.collection feats)))
    = [JList [Mock.feature "a" (Mock.polygon (JList [Mock.ring]))]]
  ∧ List.filter
      (fun feat => @fails_to_parse Mock.mock_engine feat
                   || @fails_to_repair Mock.mock_engine feat) feats = []
  ∧ length [Mock.feature "a" (Mock.polygon (JList [Mock.ring]))]
    ≠ (length feats
       - length (List.filter
                   (fun feat => @fails_to_parse Mock.mock_engine feat
                                || @fails_to_repair Mock.mock_engine feat)
                   feats))%nat.
Proof.
  repeat split; try (vm_compute; reflexivity).
  vm_compute. discriminate.
Qed.

(** On the sample, the document written keeps [type] and [name]. *)
Lemma repair_output_document_witness :
  ∃ (data : gmap string json) (fixed_features : list json),
    Ok Mock.sample = Ok (JDict data)
    ∧ dumps (Mock.run (Ok Mock.sample))
      = [JsonDump "out.geojson"
           (JDict (<["features" := JList fixed_features]> data)) false 2]
    ∧ (<["features" := JList fixed_features]> data) !! "name" = data !! "name".
Proof.
  assert (Hsucc : succeeded (Mock.run (Ok Mock.sample)) = true)
    by (vm_compute; reflexivity).
  destruct (@repair_output_document Mock.mock_engine
              (Mock.mock_files (Ok Mock.sample)) "in.geojson" "out.geojson" Hsucc)
    as (data & fixed_features & Hread & Hdump & Hframe).
  exists data, fixed_features. split; [exact Hread|]. split; [exact Hdump|].
  apply Hframe. discriminate.
Defined.

(** A missing input file. *)
Lemma repair_load_failure_and_one_outcome_witness :
  let e := Exn OtherError "[Errno 2] No such file or directory: 'in.geojson'" in
  Mock.run (Raise e) = [ProgressSet 10; ShowError "错误" (exn_str e)]
  ∧ dumps (Mock.run (Raise e)) = [].
Proof.
  intros e.
  destruct (@repair_load_failure_and_one_outcome Mock.mock_engine
              (Mock.mock_files (Raise e)) "in.geojson" "out.geojson")
    as [Hload _].
  apply Hload. reflexivity.
Defined.

(** ** The progress values *)

Lemma progress_of_floor (done total : Z) :
  0 ≤ done → progress_of done total = 30 + (60 * done) `div` Z.max 1 total.
Proof. intros Hdone. unfold progress_of. rewrite Z.quot_div_nonneg; lia. Qed.

Lemma progress_of_mono (d1 d2 total : Z) :
  0 ≤ d1 ≤ d2 → progress_of d1 total ≤ progress_of d2 total.
Proof.
  intros Hd. rewrite !progress_of_floor by lia.
  apply Z.add_le_mono_l, Z.div_le_mono; lia.
Qed.

Lemma progress_of_range (done total : Z) :
  0 ≤ done ≤ total → 30 ≤ progress_of done total ≤ 90.
Proof.
  intros Hd. rewrite progress_of_floor by lia. split.
  - assert (0 ≤ (60 * done) `div` Z.max 1 total) by (apply Z.div_pos; lia). lia.
  - assert ((60 * done) `div` Z.max 1 total ≤ 60)
      by (apply Z.div_le_upper_bound; lia).
    lia.
Qed.

(** While the loop runs the values do not decrease and stay between the
    value before the loop and 90. *)
Lemma progress_after_bounds (verdicts : list verdict) (total done : Z) :
  0 ≤ done → done + Z.of_nat (length verdicts) ≤ total →
  Forall (fun v => progress_of done total ≤ v ≤ 90) (progress_after verdicts total done)
  ∧ StronglySorted Z.le (progress_after verdicts total done).
Proof.
  revert done. induction verdicts as [|v verdicts IH]; intros done Hdone Hlen.
  { split; constructor. }
  cbn [progress_after]. cbn [length] in Hlen.
  destruct (counted v).
  - destruct (IH (done + 1)) as [Hrange Hsorted]; [lia..|].
    pose proof (progress_of_mono done (done + 1) total) as Hmono.
    pose proof (progress_of_range (done + 1) total) as Hhead.
    split.
    + constructor; [lia|]. eapply Forall_impl; [exact Hrange|]. cbn. lia.
    + constructor; [exact Hsorted|].
      eapply Forall_impl; [exact Hrange|]. cbn. lia.
  - apply IH; lia.
Qed.

(** When every feature is counted, the values are those of the formula at
    1, 2, ... *)
Lemma progress_after_all_counted (verdicts : list verdict) (total done : Z) :
  Forall (fun v => counted v = true) verdicts →
  progress_after verdicts total done
  = map (fun i : nat => progress_of (done + Z.of_nat i) total)
      (seq 1 (length verdicts)).
Proof.
  intros Hall. revert done.
  induction Hall as [|v verdicts Hv _ IH]; intros done; [reflexivity|].
  cbn [progress_after length]. rewrite Hv, IH.
  cbn [seq map]. f_equal.
  rewrite <- (seq_shift (length verdicts) 1), map_map.
  apply map_ext. intros i. f_equal. lia.
Qed.

Lemma progress_sent_progress (values : list Z) (trace : list event) :
  progress_sent ((ProgressSet <$> values) ++ trace) = values ++ progress_sent trace.
Proof.
  induction values as [|v values IH]; [done|].
  cbn. f_equal. exact IH.
Qed.

(** [len] counts what [for] visits. *)
Lemma py_len_iter (x : json) (total : Z) (feats : list json) :
  py_len x = Ok total → py_iter x = Ok feats → total = Z.of_nat (length feats).
Proof.
  destruct x as [| | | |s|l|m]; try discriminate; cbn; intros [= <-] [= <-].
  - f_equal. induction s as [|c s IH]; cbn; [done | by rewrite IH].
  - done.
  - by rewrite !length_fmap, length_map_to_list.
Qed.

Lemma sorted_progress_frame (values tail : list Z) :
  Forall (fun v => 30 ≤ v ≤ 90) values →
  StronglySorted Z.le values →
  tail = [] ∨ tail = [100] →
  StronglySorted Z.le (10 :: 30 :: values ++ tail)
  ∧ Forall (fun v => 0 ≤ v ≤ 100) (10 :: 30 :: values ++ tail).
Proof.
  intros Hrange Hsorted Htail.
  assert (Htail100 : Forall (fun v => 90 ≤ v ≤ 100) tail).
  { destruct Htail as [-> | ->]; repeat constructor; lia. }
  assert (Hall : Forall (fun v => 30 ≤ v ≤ 100) (values ++ tail)).
  { apply Forall_app. split; (eapply Forall_impl; [eassumption|]); cbn; lia. }
  split.
  - constructor; [constructor|].
    + apply StronglySorted_app_2; [|exact Hsorted|].
      * intros x1 x2 Hx1 Hx2.
        rewrite Forall_forall in Hrange, Htail100.
        specialize (Hrange x1 Hx1). specialize (Htail100 x2 Hx2). lia.
      * destruct Htail as [-> | ->]; repeat constructor.
    + eapply Forall_impl; [exact Hall|]. cbn. lia.
    + constructor; [lia|]. eapply Forall_impl; [exact Hall|]. cbn. lia.
  - constructor; [lia|]. constructor; [lia|].
    eapply Forall_impl; [exact Hall|]. cbn. lia.
Qed.

Section Progress.
Context {engine : Engine} {files : Files}.

Lemma loop_progress_bounds (feats : list json) :
  Forall (fun v => 30 ≤ v ≤ 90)
    (progress_after (visits feats).1 (Z.of_nat (length feats)) 0)
  ∧ StronglySorted Z.le
      (progress_after (visits feats).1 (Z.of_nat (length feats)) 0).
Proof.
  pose proof (visits_length feats) as Hlen.
  destruct (progress_after_bounds (visits feats).1 (Z.of_nat (length feats)) 0)
    as [Hrange Hsorted]; [lia..|].
  split; [|exact Hsorted].
  eapply Forall_impl; [exact Hrange|]. cbn.
  pose proof (progress_of_range 0 (Z.of_nat (length feats))). lia.
Qed.

(** X23: in every run, successful or not, the values the progress sink
    receives never decrease and lie within 0..100; a successful run ends
    them with 100. *)
Theorem progress_sent_sorted_bounded (input_path output_path : string) :
  StronglySorted Z.le (progress_sent (repair_geojson_no_gpd input_path output_path))
  ∧ Forall (fun v => 0 ≤ v ≤ 100)
      (progress_sent (repair_geojson_no_gpd input_path output_path))
  ∧ (succeeded (repair_geojson_no_gpd input_path output_path) = true →
     last (progress_sent (repair_geojson_no_gpd input_path output_path)) = Some 100).
Proof.
  rewrite repair_geojson_no_gpd_eq, repair_body_eq.
  destruct (read_json input_path) as [data|e].
  2:{ cbn. repeat split; try discriminate; repeat constructor; lia. }
  destruct (py_get data "features" (JList [])) as [features|e].
  2:{ cbn. repeat split; try discriminate; repeat constructor; lia. }
  destruct (py_len features) as [total|e] eqn:Hlen.
  2:{ cbn. repeat split; try discriminate; repeat constructor; lia. }
  destruct (py_iter features) as [feats|e] eqn:Hiter.
  2:{ cbn. repeat split; try discriminate; repeat constructor; lia. }
  rewrite (py_len_iter features total feats Hlen Hiter). cbv zeta.
  destruct (loop_progress_bounds feats) as [Hrange Hsorted].
  set (values := progress_after (visits feats).1 (Z.of_nat (length feats)) 0) in *.
  assert (Hfail : ∀ title message,
    let trace := (ProgressSet 10 :: ProgressSet 30 :: (ProgressSet <$> values))
                 ++ [ShowError title message] in
    StronglySorted Z.le (progress_sent trace)
    ∧ Forall (fun v => 0 ≤ v ≤ 100) (progress_sent trace)
    ∧ (succeeded trace = true → last (progress_sent trace) = Some 100)).
  { intros title message trace. subst trace.
    rewrite not_succeeded_raise.
    cbn [app progress_sent omap list_omap].
    change (omap _ ((ProgressSet <$> values) ++ [ShowError title message]))
      with (progress_sent ((ProgressSet <$> values) ++ [ShowError title message])).
    rewrite progress_sent_progress. cbn [progress_sent omap list_omap].
    destruct (sorted_progress_frame values [] Hrange Hsorted) as [? ?]; [by left|].
    by repeat split. }
  destruct ((visits feats).2) as [e|]; [apply Hfail|].
  destruct (py_setitem data "features" _) as [data'|e]; [|apply Hfail].
  destruct (open_write output_path) as [e|]; [apply Hfail|].
  cbn [fst snd progress_sent omap list_omap].
  change (omap _ ((ProgressSet <$> values) ++ ?t))
    with (progress_sent ((ProgressSet <$> values) ++ t)).
  rewrite progress_sent_progress. cbn [progress_sent omap list_omap].
  destruct (sorted_progress_frame values [100] Hrange Hsorted) as [? ?]; [by right|].
  split; [done|]. split; [done|]. intros _.
  change (10 :: 30 :: values ++ [100]) with ([10; 30] ++ values ++ [100]).
  by rewrite !app_assoc, last_snoc.
Qed.

(** X24: on a successful run in which no feature is left by [continue],
    the progress sink receives the specified sequence. *)
Theorem progress_as_specified (input_path output_path : string) :
  succeeded (repair_geojson_no_gpd input_path output_path) = true →
  ∃ (data : gmap string json) (feats : list json),
    read_json input_path = Ok (JDict data)
    ∧ py_iter (from_option id (JList []) (data !! "features")) = Ok feats
    ∧ (Forall (fun feat => visit feat ≠ Ok Skipped) feats →
       progress_sent (repair_geojson_no_gpd input_path output_path)
       = spec_progress (length feats)).
Proof.
  intros Hsucc.
  destruct (repair_succeeded_inv _ _ Hsucc)
    as (data & total & feats & Hread & Hlen & Hiter & Hvisits & _ & ->).
  exists data, feats. split; [done|]. split; [done|]. intros Hnoskip.
  rewrite (py_len_iter _ total feats Hlen Hiter).
  destruct (visits_all feats Hvisits) as [Hall _].
  assert (Hcounted : Forall (fun v => counted v = true) (visits feats).1).
  { clear -Hall Hnoskip.
    induction Hall as [|feat v feats verdicts Hv _ IH]; [constructor|].
    apply Forall_cons_1 in Hnoskip as [Hfeat Hnoskip].
    constructor; [|by apply IH].
    destruct v; [done..|]. by rewrite Hv in Hfeat. }
  cbn [progress_sent omap list_omap].
  change (omap _ ((ProgressSet <$> ?l) ++ ?t))
    with (progress_sent ((ProgressSet <$> l) ++ t)).
  rewrite progress_sent_progress, progress_after_all_counted by done.
  rewrite <- (Forall2_length _ _ _ Hall).
  unfold spec_progress. cbn [app progress_sent omap list_omap]. do 2 f_equal.
  f_equal. apply map_ext. intros i. rewrite progress_of_floor by lia.
  by rewrite Z.add_0_l.
Qed.

End Progress.

(** C6 fails on the code where a geometry cannot be parsed: the loop leaves
    that feature by [continue], before [done] is counted and the progress
    value set. Of a collection of one such feature the progress sink
    receives 10, 30, 100; the specified sequence is 10, 30, 90, 100. *)
Theorem progress_skips_unparseable_feature :
  let doc := Mock.collection [Mock.feature "c" (Mock.polygon (JStr "not-a-list"))] in
  succeeded (Mock.run (Ok doc)) = true
  ∧ progress_sent (Mock.run (Ok doc)) = [10; 30; 100]
  ∧ spec_progress 1 = [10; 30; 90; 100].
Proof. repeat split; vm_compute; reflexivity. Qed.


(** * More of the normalizer *)

(** The depth of what [adjust] returns. *)
Lemma adjust_depth (target : nat) (coords : json) :
  (0 < target)%nat →
  ∃ coords',
    adjust target coords = Ok coords'
    ∧ depth coords' =
        (if Nat.eqb (depth coords) (target - 1) then target
         else if Nat.ltb target (depth coords) then (depth coords - 1)%nat
         else depth coords).
Proof.
  intros Ht. unfold adjust.
  destruct (Nat.eqb_spec (depth coords) (target - 1)) as [Heq|Hne].
  { eexists. split; [reflexivity|]. rewrite depth_cons. lia. }
  destruct (Nat.ltb_spec target (depth coords)) as [Hlt|Hge]; [|eauto].
  destruct (py_first_depth_pos coords) as (first & -> & Hd); [lia|].
  exists first. split; [reflexivity | lia].
Qed.

(** The normalizer on a Polygon or MultiPolygon dict, through [adjust]. *)
Lemma fix_geojson_structure_typed (m : gmap string json) (gtype coords : json)
    (target : nat) :
  m !! "type" = Some gtype →
  m !! "coordinates" = Some coords →
  gtype = JStr "Polygon" ∧ target = 3%nat
  ∨ gtype = JStr "MultiPolygon" ∧ target = 4%nat →
  fix_geojson_structure (JDict m)
  = (coords' ← adjust target coords; Ok (JDict (<["coordinates" := coords']> m))).
Proof.
  intros Hty Hco Htyped. rewrite fix_geojson_structure_dict, Hty, Hco.
  by destruct Htyped as [[-> ->] | [-> ->]].
Qed.

(** X1: on a dict the normalizer touches nothing but the value of
    [coordinates]: the result has the keys of the argument and the same value
    under every other key, [type] among them. *)
Theorem fix_geojson_structure_frame (m : gmap string json) :
  ∃ m' : gmap string json,
    fix_geojson_structure (JDict m) = Ok (JDict m')
    ∧ dom m' = dom m
    ∧ ∀ key : string, key ≠ "coordinates" → m' !! key = m !! key.
Proof.
  rewrite fix_geojson_structure_dict.
  destruct (m !! "type") as [gtype|] eqn:Hty; [|by exists m].
  destruct (m !! "coordinates") as [coords|] eqn:Hco; [|by exists m].
  assert (Hset : ∀ coords', dom (<["coordinates" := coords']> m) = dom m
                  ∧ ∀ key : string, key ≠ "coordinates" →
                      (<["coordinates" := coords']> m) !! key = m !! key).
  { intros coords'. split.
    - apply dom_insert_lookup_L. by exists coords.
    - intros key Hkey. by rewrite lookup_insert_ne. }
  destruct (py_eq_str gtype "Polygon").
  { destruct (adjust_total 3 coords) as [coords' ->]; [lia|]. cbn.
    exists (<["coordinates" := coords']> m). split; [done|]. apply Hset. }
  destruct (py_eq_str gtype "MultiPolygon"); [|by exists m].
  destruct (adjust_total 4 coords) as [coords' ->]; [lia|]. cbn.
  exists (<["coordinates" := coords']> m). split; [done|]. apply Hset.
Qed.

(** X2: the depth the normalizer leaves. For a Polygon ([target] 3) or a
    MultiPolygon ([target] 4) the new coordinates have depth [target] when
    the old had [target - 1], one less than the old above [target], and the
    old depth otherwise; so they have depth [target] exactly when the old
    depth was within one of it. *)
Theorem fix_geojson_structure_output_depth (m : gmap string json)
    (gtype coords : json) (target : nat) :
  m !! "type" = Some gtype →
  m !! "coordinates" = Some coords →
  gtype = JStr "Polygon" ∧ target = 3%nat
  ∨ gtype = JStr "MultiPolygon" ∧ target = 4%nat →
  ∃ coords' : json,
    fix_geojson_structure (JDict m) = Ok (JDict (<["coordinates" := coords']> m))
    ∧ depth coords' =
        (if Nat.eqb (depth coords) (target - 1) then target
         else if Nat.ltb target (depth coords) then (depth coords - 1)%nat
         else depth coords)
    ∧ (depth coords' = target ↔ (target - 1 ≤ depth coords ≤ target + 1)%nat).
Proof.
  intros Hty Hco Htyped.
  rewrite (fix_geojson_structure_typed m gtype coords target Hty Hco Htyped).
  destruct (adjust_depth target coords) as (coords' & -> & Hdepth).
  { destruct Htyped as [[_ ->] | [_ ->]]; lia. }
  exists coords'. split; [done|]. split; [exact Hdepth|].
  rewrite Hdepth.
  assert (3 ≤ target)%nat by (destruct Htyped as [[_ ->] | [_ ->]]; lia).
  destruct (Nat.eqb_spec (depth coords) (target - 1)); [lia|].
  destruct (Nat.ltb_spec target (depth coords)); lia.
Qed.

(** A MultiPolygon given as a single ring is too shallow to be wrapped, and
    stays at depth 2. *)
Lemma fix_geojson_structure_output_depth_witness :
  ∃ coords' : json,
    fix_geojson_structure
      (JDict {[ "type" := JStr "MultiPolygon"; "coordinates" := Mock.ring ]})
    = Ok (JDict (<["coordinates" := coords']>
                   {[ "type" := JStr "MultiPolygon"; "coordinates" := Mock.ring ]}))
    ∧ depth coords' = 2%nat.
Proof.
  destruct (fix_geojson_structure_output_depth
              {[ "type" := JStr "MultiPolygon"; "coordinates" := Mock.ring ]}
              (JStr "MultiPolygon") Mock.ring 4)
    as (coords' & Hfix & Hdepth & _);
    [vm_compute; reflexivity | vm_compute; reflexivity | right; by split |].
  exists coords'. split; [exact Hfix | exact Hdepth].
Defined.

(** X3: on coordinates at most one level deeper than the target, one pass
    is enough: the normalizer returns its own result unchanged. *)
Theorem fix_geojson_structure_idempotent (m : gmap string json)
    (gtype coords : json) (target : nat) :
  m !! "type" = Some gtype →
  m !! "coordinates" = Some coords →
  gtype = JStr "Polygon" ∧ target = 3%nat
  ∨ gtype = JStr "MultiPolygon" ∧ target = 4%nat →
  (depth coords ≤ target + 1)%nat →
  ∃ r : json,
    fix_geojson_structure (JDict m) = Ok r ∧ fix_geojson_structure r = Ok r.
Proof.
  intros Hty Hco Htyped Hdepth.
  assert (3 ≤ target)%nat by (destruct Htyped as [[_ ->] | [_ ->]]; lia).
  rewrite (fix_geojson_structure_typed m gtype coords target Hty Hco Htyped).
  destruct (adjust_depth target coords) as (coords' & -> & Hd'); [lia|].
  exists (JDict (<["coordinates" := coords']> m)). split; [done|].
  rewrite (fix_geojson_structure_typed _ gtype coords' target);
    [|by rewrite lookup_insert_ne|by rewrite lookup_insert_eq|done].
  assert (Hstay : adjust target coords' = Ok coords').
  { unfold adjust. rewrite Hd'.
    destruct (Nat.eqb_spec (depth coords) (target - 1)) as [?|?].
    - destruct (Nat.eqb_spec target (target - 1)); [lia|].
      destruct (Nat.ltb_spec target target); [lia | done].
    - destruct (Nat.ltb_spec target (depth coords)).
      + destruct (Nat.eqb_spec (depth coords - 1) (target - 1)); [lia|].
        destruct (Nat.ltb_spec target (depth coords - 1)); [lia | done].
      + destruct (Nat.eqb_spec (depth coords) (target - 1)); [lia|].
        destruct (Nat.ltb_spec target (depth coords)); [lia | done]. }
  rewrite Hstay. cbn. by rewrite insert_insert_eq.
Qed.

(** A ring given as Polygon coordinates: wrapped once, then left alone. *)
Lemma fix_geojson_structure_idempotent_witness :
  ∃ r : json,
    fix_geojson_structure (Mock.polygon Mock.ring) = Ok r
    ∧ fix_geojson_structure r = Ok r.
Proof.
  apply (fix_geojson_structure_idempotent
           {[ "type" := JStr "Polygon"; "coordinates" := Mock.ring ]}
           (JStr "Polygon") Mock.ring 3).
  - vm_compute; reflexivity.
  - vm_compute; reflexivity.
  - left. by split.
  - simpl. lia.
Defined.

(** X4: coordinates [n] levels too deep reach the target depth after [n]
    passes of the normalizer, not before: each pass removes one level. *)
Theorem normalize_times_converges (n : nat) (m : gmap string json)
    (gtype coords : json) (target : nat) :
  m !! "type" = Some gtype →
  m !! "coordinates" = Some coords →
  gtype = JStr "Polygon" ∧ target = 3%nat
  ∨ gtype = JStr "MultiPolygon" ∧ target = 4%nat →
  depth coords = (target + n)%nat →
  ∀ k : nat, (k ≤ n)%nat →
    ∃ coords' : json,
      normalize_times k (JDict m) = Ok (JDict (<["coordinates" := coords']> m))
      ∧ depth coords' = (target + n - k)%nat.
Proof.
  intros Hty Hco Htyped Hdepth k. revert m coords n Hty Hco Hdepth.
  assert (3 ≤ target)%nat by (destruct Htyped as [[_ ->] | [_ ->]]; lia).
  induction k as [|k IH]; intros m coords n Hty Hco Hdepth Hk.
  { exists coords. cbn. rewrite insert_id by done. split; [done | lia]. }
  cbn [normalize_times].
  rewrite (fix_geojson_structure_typed m gtype coords target Hty Hco Htyped).
  destruct (adjust_depth target coords) as (first & -> & Hfirst); [lia|].
  cbn [mbind res_bind].
  destruct (Nat.eqb_spec (depth coords) (target - 1)); [lia|].
  destruct (Nat.ltb_spec target (depth coords)); [|lia].
  destruct (IH (<["coordinates" := first]> m) first (n - 1)%nat)
    as (coords' & Hrun & Hd'); [by rewrite lookup_insert_ne|by rewrite lookup_insert_eq|lia..|].
  exists coords'. rewrite Hrun, insert_insert_eq. split; [done | lia].
Qed.

(** Polygon coordinates two levels too deep: depth 5, then 4 after one
    pass and 3 after two. *)
Lemma normalize_times_converges_witness :
  ∃ coords' : json,
    normalize_times 2 (Mock.polygon (JList [JList [JList [Mock.ring]]]))
    = Ok (JDict (<["coordinates" := coords']>
                   {[ "type" := JStr "Polygon";
                      "coordinates" := JList [JList [JList [Mock.ring]]] ]}))
    ∧ depth coords' = 3%nat.
Proof.
  apply (normalize_times_converges 2
           {[ "type" := JStr "Polygon";
              "coordinates" := JList [JList [JList [Mock.ring]]] ]}
           (JStr "Polygon") (JList [JList [JList [Mock.ring]]]) 3).
  - vm_compute; reflexivity.
  - vm_compute; reflexivity.
  - left. by split.
  - reflexivity.
  - lia.
Defined.

(** X5: what the normalizer does with a value that is not a dict. It
    returns the value as it came exactly when the value is false ([None],
    [False], 0, an empty string or list) or is a string or list that lacks
    one of the names [type] and [coordinates]; on every other value that is
    not a dict it raises a [TypeError]. *)
Theorem fix_geojson_structure_not_dict (x : json) :
  (∀ m, x ≠ JDict m) →
  (fix_geojson_structure x = Ok x
   ∨ ∃ message, fix_geojson_structure x = Raise (Exn TypeError message))
  ∧ (fix_geojson_structure x = Ok x ↔
       truthy x = false
       ∨ py_in "type" x = Ok false
       ∨ py_in "coordinates" x = Ok false).
Proof.
  intros Hnotdict. unfold fix_geojson_structure.
  destruct (truthy x) eqn:Ht; cbn [negb]; [|split; [by left | by split; [left|]]].
  destruct x as [|b|z|q|s|l|m]; try discriminate Ht.
  - cbn. split; [right; eauto|]. split; [discriminate | by intros [?|[?|?]]].
  - cbn. split; [right; eauto|]. split; [discriminate | by intros [?|[?|?]]].
  - cbn. split; [right; eauto|]. split; [discriminate | by intros [?|[?|?]]].
  - cbn -[str_contains].
    destruct (str_contains "type" s); cbn -[str_contains];
      [|split; [by left | split; [by right; left | done]]].
    destruct (str_contains "coordinates" s); cbn -[str_contains];
      [|split; [by left | split; [by right; right | done]]].
    split; [right; eauto|]. split; [discriminate | by intros [?|[?|?]]].
  - cbn -[existsb].
    destruct (existsb _ l); cbn -[existsb];
      [|split; [by left | split; [by right; left | done]]].
    destruct (existsb _ l); cbn -[existsb];
      [|split; [by left | split; [by right; right | done]]].
    split; [right; eauto|]. split; [discriminate | by intros [?|[?|?]]].
  - by destruct (Hnotdict m).
Qed.

(** A geometry given as a list of names comes back as it is when it lacks
    one of them, and makes the normalizer raise when it has both. *)
Lemma fix_geojson_structure_not_dict_witness :
  fix_geojson_structure (JList [JStr "type"]) = Ok (JList [JStr "type"])
  ∧ ∃ message,
      fix_geojson_structure (JList [JStr "type"; JStr "coordinates"])
      = Raise (Exn TypeError message).
Proof.
  split.
  - apply (fix_geojson_structure_not_dict (JList [JStr "type"])); [discriminate|].
    right. right. reflexivity.
  - destruct (fix_geojson_structure_not_dict
                (JList [JStr "type"; JStr "coordinates"])) as [[Hok|Hraise] _];
      [discriminate | discriminate Hok | exact Hraise].
Defined.

(** * More of the repairer and of the loop body *)

Section MoreRepair.
Context {engine : Engine}.

(** The three ways out of the repairer. *)
Lemma fix_polygon_validity_cases (geom : geometry) :
  (is_valid geom = true ∧ fix_polygon_validity geom = Ok (Some geom))
  ∨ (is_valid geom = false
     ∧ ∃ fixed, buffer0 geom = Ok fixed
         ∧ fix_polygon_validity geom
           = Ok (if is_valid fixed then Some fixed else None))
  ∨ (is_valid geom = false
     ∧ ∃ e, buffer0 geom = Raise e
         ∧ fix_polygon_validity geom
           = match exn_cls e with TopologicalError => Ok None | _ => Raise e end).
Proof.
  unfold fix_polygon_validity.
  destruct (is_valid geom); [by left|]. right.
  destruct (buffer0 geom) as [fixed|e]; cbn.
  - left. split; [done|]. exists fixed. split; [done|]. by destruct (is_valid fixed).
  - right. split; [done|]. by exists e.
Qed.

(** X6: whatever geometry the repairer returns is valid, and it is the
    argument itself or the zero buffer of an invalid argument. *)
Theorem fix_polygon_validity_returns_valid (geom g : geometry) :
  fix_polygon_validity geom = Ok (Some g) →
  is_valid g = true
  ∧ (g = geom ∨ (is_valid geom = false ∧ buffer0 geom = Ok g)).
Proof.
  intros Hfix.
  destruct (fix_polygon_validity_cases geom)
    as [[Hvalid Heq] | [[Hinvalid (fixed & Hbuf & Heq)] | [Hinvalid (e & Hbuf & Heq)]]];
    rewrite Heq in Hfix.
  - injection Hfix as <-. split; [done | by left].
  - destruct (is_valid fixed) eqn:Hfixed; [|discriminate].
    injection Hfix as <-. split; [done | right; by split].
  - by destruct (exn_cls e).
Qed.

(** X7: the repairer returns its own result as it is: a second call changes
    nothing. *)
Theorem fix_polygon_validity_idempotent (geom g : geometry) :
  fix_polygon_validity geom = Ok (Some g) →
  fix_polygon_validity g = Ok (Some g).
Proof.
  intros Hfix.
  destruct (fix_polygon_validity_cases geom)
    as [[Hvalid Heq] | [[Hinvalid (fixed & Hbuf & Heq)] | [Hinvalid (e & Hbuf & Heq)]]];
    rewrite Heq in Hfix.
  - by injection Hfix as <-.
  - destruct (is_valid fixed) eqn:Hfixed; [|discriminate].
    injection Hfix as <-. unfold fix_polygon_validity. by rewrite Hfixed.
  - by destruct (exn_cls e).
Qed.

(** X8: the repairer raises exactly when the geometry is invalid and the
    zero buffer raises something other than a topological error, and what it
    raises then is that exception. *)
Theorem fix_polygon_validity_raises (geom : geometry) (e : exn) :
  fix_polygon_validity geom = Raise e ↔
    is_valid geom = false
    ∧ buffer0 geom = Raise e
    ∧ exn_cls e ≠ TopologicalError.
Proof.
  destruct (fix_polygon_validity_cases geom)
    as [[Hvalid Heq] | [[Hinvalid (fixed & Hbuf & Heq)] | [Hinvalid (e' & Hbuf & Heq)]]];
    rewrite Heq.
  - split; [discriminate | intros (? & _); congruence].
  - split; [by destruct (is_valid fixed) | intros (_ & ? & _); congruence].
  - split.
    + destruct (exn_cls e') eqn:Hcls; intros [= <-]; repeat split; congruence.
    + intros (_ & Hbuf' & Hcls). rewrite Hbuf in Hbuf'. injection Hbuf' as ->.
      by destruct (exn_cls e).
Qed.

(** What a kept feature went through. *)
Lemma visit_kept_inv (feat feat' : json) :
  visit feat = Ok (Kept feat') →
  ∃ (fm : gmap string json) (geom_dict geom_dict' : json) (geom g : geometry),
    feat = JDict fm
    ∧ fm !! "geometry" = Some geom_dict
    ∧ truthy geom_dict = true
    ∧ fix_geojson_structure geom_dict = Ok geom_dict'
    ∧ shape geom_dict' = Ok geom
    ∧ fix_polygon_validity geom = Ok (Some g)
    ∧ is_empty g = false
    ∧ feat' = JDict (<["geometry" := mapping g]> fm).
Proof.
  unfold visit. intros Hvisit.
  destruct feat as [| | | | | |fm]; try discriminate Hvisit.
  cbn in Hvisit.
  destruct (fm !! "geometry") as [geom_dict|] eqn:Hgeom; cbn in Hvisit;
    [|discriminate].
  destruct (truthy geom_dict) eqn:Htruthy; [|discriminate].
  destruct (fix_geojson_structure geom_dict) as [geom_dict'|] eqn:Hfix;
    cbn in Hvisit; [|discriminate].
  destruct (shape geom_dict') as [geom|] eqn:Hshape; [|discriminate].
  destruct (fix_polygon_validity geom) as [[g|]|] eqn:Hrepair;
    cbn in Hvisit; try discriminate.
  destruct (is_empty g) eqn:Hempty; [discriminate|].
  injection Hvisit as <-.
  exists fm, geom_dict, geom_dict', geom, g.
  repeat split; try done. by rewrite insert_insert_eq.
Qed.

(** X9: a feature that survives is the input feature with only its
    [geometry] replaced, by the export of a valid geometry that is not
    empty; every other field of the feature is as it was. *)
Theorem survivor_keeps_other_fields (feat feat' : json) :
  survivor feat = Some feat' →
  ∃ (fm : gmap string json) (g : geometry),
    feat = JDict fm
    ∧ feat' = JDict (<["geometry" := mapping g]> fm)
    ∧ is_valid g = true
    ∧ is_empty g = false
    ∧ ∀ key : string,
        key ≠ "geometry" → (<["geometry" := mapping g]> fm) !! key = fm !! key.
Proof.
  unfold survivor. intros Hsurv.
  destruct (visit feat) as [[kept_feat| |]|] eqn:Hvisit; try discriminate Hsurv.
  injection Hsurv as ->.
  destruct (visit_kept_inv feat feat' Hvisit)
    as (fm & geom_dict & geom_dict' & geom & g & -> & _ & _ & _ & _ & Hrepair & Hempty & ->).
  exists fm, g. split; [done|]. split; [done|].
  destruct (fix_polygon_validity_returns_valid geom g Hrepair) as [Hvalid _].
  split; [done|]. split; [done|].
  intros key Hkey. by rewrite lookup_insert_ne.
Qed.

(** X10: a feature is counted but not kept exactly when its geometry is
    false (missing, [None], or an empty dict, list or string, zero,
    [False]), or the repairer gives up on it, or the repaired geometry is
    empty. *)
Theorem visit_dropped_iff (feat : json) :
  visit feat = Ok Dropped ↔
    ∃ fm : gmap string json,
      feat = JDict fm
      ∧ (truthy (from_option id JNull (fm !! "geometry")) = false
         ∨ ∃ (geom_dict' : json) (geom : geometry),
             truthy (from_option id JNull (fm !! "geometry")) = true
             ∧ fix_geojson_structure (from_option id JNull (fm !! "geometry"))
               = Ok geom_dict'
             ∧ shape geom_dict' = Ok geom
             ∧ (fix_polygon_validity geom = Ok None
                ∨ ∃ g, fix_polygon_validity geom = Ok (Some g)
                    ∧ is_empty g = true)).
Proof.
  unfold visit.
  destruct feat as [| | | | | |fm];
    try (split; [discriminate | by intros (fm & [=] & _)]).
  cbn [py_get mbind res_bind].
  set (geom_dict := from_option id JNull (fm !! "geometry")).
  destruct (truthy geom_dict) eqn:Htruthy.
  2:{ split; [|done]. intros _. exists fm. split; [done | by left]. }
  destruct (fix_geojson_structure geom_dict) as [geom_dict'|e] eqn:Hfix;
    cbn [mbind res_bind py_setitem].
  2:{ split; [discriminate|].
      intros (fm' & [= <-] & [Hfalse | (gd & geom & _ & Hfix' & _)]).
      - fold geom_dict in Hfalse. congruence.
      - fold geom_dict in Hfix'. congruence. }
  destruct (shape geom_dict') as [geom|e] eqn:Hshape.
  2:{ split; [discriminate|].
      intros (fm' & [= <-] & [Hfalse | (gd & geom & _ & Hfix' & Hshape' & _)]).
      - fold geom_dict in Hfalse. congruence.
      - fold geom_dict in Hfix'. congruence. }
  split.
  - intros Hvisit. exists fm. split; [done|]. right.
    exists geom_dict', geom. split; [done|]. split; [done|]. split; [done|].
    destruct (fix_polygon_validity geom) as [[g|]|e]; cbn in Hvisit;
      [|by left|discriminate].
    right. exists g. split; [done|]. by destruct (is_empty g).
  - intros (fm' & [= <-] & [Hfalse | (gd & geom' & _ & Hfix' & Hshape' & Hrepair)]).
    { fold geom_dict in Hfalse. congruence. }
    fold geom_dict in Hfix'. rewrite Hfix in Hfix'. injection Hfix' as <-.
    rewrite Hshape in Hshape'. injection Hshape' as <-.
    destruct Hrepair as [-> | (g & -> & Hempty)]; cbn; [done|].
    by rewrite Hempty.
Qed.

End MoreRepair.

(** On the mock engine: the bowtie comes back repaired and valid. *)
Lemma fix_polygon_validity_returns_valid_witness :
  let valid := Mock.polygon (JList [Mock.ring]) in
  let bowtie := JDict {[ "type" := JStr "Polygon";
                         "coordinates" := JList [Mock.ring];
                         "bowtie" := JBool true ]} in
  @is_valid Mock.mock_engine valid = true
  ∧ (valid = bowtie
     ∨ (@is_valid Mock.mock_engine bowtie = false
        ∧ @buffer0 Mock.mock_engine bowtie = Ok valid)).
Proof.
  intros valid bowtie.
  apply (@fix_polygon_validity_returns_valid Mock.mock_engine bowtie valid).
  vm_compute; reflexivity.
Defined.

(** On the mock engine: the repaired bowtie is returned as it is. *)
Lemma fix_polygon_validity_idempotent_witness :
  let valid := Mock.polygon (JList [Mock.ring]) in
  @fix_polygon_validity Mock.mock_engine valid = Ok (Some valid).
Proof.
  intros valid.
  apply (@fix_polygon_validity_idempotent Mock.mock_engine
           (JDict {[ "type" := JStr "Polygon";
                     "coordinates" := JList [Mock.ring];
                     "bowtie" := JBool true ]}) valid).
  vm_compute; reflexivity.
Defined.

(** On the mock engine: the feature [d] of the sample survives with its
    ring wrapped, and keeps its [properties]. *)
Lemma survivor_keeps_other_fields_witness :
  ∃ (fm : gmap string json) (g : json),
    Mock.feature "d" (Mock.polygon Mock.ring) = JDict fm
    ∧ Mock.feature "d" (Mock.polygon (JList [Mock.ring]))
      = JDict (<["geometry" := g]> fm)
    ∧ (<["geometry" := g]> fm) !! "properties" = fm !! "properties".
Proof.
  destruct (@survivor_keeps_other_fields Mock.mock_engine
              (Mock.feature "d" (Mock.polygon Mock.ring))
              (Mock.feature "d" (Mock.polygon (JList [Mock.ring]))))
    as (fm & g & Hfeat & Hfeat' & _ & _ & Hframe); [vm_compute; reflexivity|].
  exists fm, g. split; [exact Hfeat|]. split; [exact Hfeat'|].
  apply Hframe. discriminate.
Defined.

(** * More of the run *)

Lemma py_iter_len (x : json) (feats : list json) :
  py_iter x = Ok feats → py_len x = Ok (Z.of_nat (length feats)).
Proof.
  destruct x as [| | | |s|l|m]; try discriminate; cbn; intros [= <-].
  - do 2 f_equal. induction s as [|c s IH]; cbn; [done | by rewrite IH].
  - done.
  - by rewrite !length_fmap, length_map_to_list.
Qed.

Section MoreRun.
Context {engine : Engine} {files : Files}.

Lemma visits_none_iff (feats : list json) :
  (visits feats).2 = None ↔ Forall (fun feat => ∃ v, visit feat = Ok v) feats.
Proof.
  induction feats as [|feat feats IH]; cbn; [by split|].
  rewrite Forall_cons. destruct (visit feat) as [v|e]; cbn.
  - rewrite IH. split; [intros ?; split; eauto | by intros [_ ?]].
  - split; [discriminate | by intros [[v ?] _]].
Qed.

Lemma visits_first_raise (before after : list json) (bad : json) (e : exn) :
  Forall (fun feat => ∃ v, visit feat = Ok v) before →
  visit bad = Raise e →
  visits (before ++ bad :: after) = ((visits before).1, Some e).
Proof.
  intros Hbefore Hbad.
  induction Hbefore as [|feat before [v Hv] _ IH]; cbn.
  - by rewrite Hbad.
  - by rewrite Hv, IH.
Qed.

(** The shape of every trace: 10, then values between 30 and 90, then either
    one error message, or the dump, 100 and the success message. *)
Lemma repair_trace_shape (input_path output_path : string) :
  ∃ values : list Z,
    (Forall (fun v => 30 ≤ v ≤ 90) values ∧ StronglySorted Z.le values)
    ∧ ((∃ message,
          repair_geojson_no_gpd input_path output_path
          = ProgressSet 10 :: (ProgressSet <$> values)
            ++ [ShowError "错误" message])
       ∨ (∃ data,
            repair_geojson_no_gpd input_path output_path
            = ProgressSet 10 :: (ProgressSet <$> values)
              ++ [JsonDump output_path data false 2; ProgressSet 100;
                  ShowInfo "完成" ("修复成功：" +:+ newline +:+ output_path)])).
Proof.
  rewrite repair_geojson_no_gpd_eq, repair_body_eq.
  destruct (read_json input_path) as [data|e].
  2:{ exists []. split; [split; constructor|]. left. by eexists. }
  destruct (py_get data "features" (JList [])) as [features|e].
  2:{ exists [30]. split; [split; repeat constructor; lia|]. left. by eexists. }
  destruct (py_len features) as [total|e] eqn:Hlen.
  2:{ exists [30]. split; [split; repeat constructor; lia|]. left. by eexists. }
  destruct (py_iter features) as [feats|e] eqn:Hiter.
  2:{ exists [30]. split; [split; repeat constructor; lia|]. left. by eexists. }
  rewrite (py_len_iter features total feats Hlen Hiter). cbv zeta.
  destruct (loop_progress_bounds feats) as [Hrange Hsorted].
  exists (30 :: progress_after (visits feats).1 (Z.of_nat (length feats)) 0).
  split.
  { split; [constructor; [lia | exact Hrange]|].
    constructor; [exact Hsorted|].
    eapply Forall_impl; [exact Hrange|]. cbn. lia. }
  destruct ((visits feats).2) as [e|]; [left; by eexists|].
  destruct (py_setitem data "features" _) as [data'|e]; [|left; by eexists].
  destruct (open_write output_path) as [e|]; [left; by eexists|].
  right. by eexists.
Qed.

(** X11: when a run succeeds. It reports success exactly when the input
    loads as a dict, the value of its [features] (an empty list when the key
    is missing) can be iterated, the loop body raises on none of the
    features, and the output file can be written. *)
Theorem repair_succeeds_iff (input_path output_path : string) :
  succeeded (repair_geojson_no_gpd input_path output_path) = true ↔
    ∃ (data : gmap string json) (feats : list json),
      read_json input_path = Ok (JDict data)
      ∧ py_iter (from_option id (JList []) (data !! "features")) = Ok feats
      ∧ Forall (fun feat => ∃ v, visit feat = Ok v) feats
      ∧ open_write output_path = None.
Proof.
  split.
  - intros Hsucc.
    destruct (repair_succeeded_inv _ _ Hsucc)
      as (data & total & feats & Hread & _ & Hiter & Hvisits & Hopen & _).
    exists data, feats. by rewrite <- visits_none_iff.
  - intros (data & feats & Hread & Hiter & Hall & Hopen).
    rewrite repair_geojson_no_gpd_eq, repair_body_eq, Hread.
    cbn [py_get py_setitem]. rewrite (py_iter_len _ feats Hiter), Hiter. cbv zeta.
    apply visits_none_iff in Hall. rewrite Hall, Hopen. cbn [fst snd].
    cbn [succeeded existsb orb].
    exact (succeeded_progress _ _).
Qed.

(** X13: the progress sink receives 100 in the runs that succeed and in no
    other; in a run that fails every value it receives is at most 90. *)
Theorem progress_100_iff_succeeded (input_path output_path : string) :
  (100 ∈ progress_sent (repair_geojson_no_gpd input_path output_path)
   ↔ succeeded (repair_geojson_no_gpd input_path output_path) = true)
  ∧ (succeeded (repair_geojson_no_gpd input_path output_path) = false →
     Forall (fun v => v ≤ 90)
       (progress_sent (repair_geojson_no_gpd input_path output_path))).
Proof.
  destruct (repair_trace_shape input_path output_path)
    as (values & [Hrange _] & [[message ->] | [data ->]]).
  - cbn [progress_sent omap list_omap].
    change (omap _ ((ProgressSet <$> values) ++ ?t))
      with (progress_sent ((ProgressSet <$> values) ++ t)).
    rewrite progress_sent_progress. cbn [succeeded existsb orb].
    change (existsb _ ((ProgressSet <$> values) ++ ?t))
      with (succeeded ((ProgressSet <$> values) ++ t)).
    rewrite succeeded_progress. cbn. rewrite app_nil_r.
    split.
    + split; [|discriminate].
      intros Hin. apply elem_of_cons in Hin as [?|Hin]; [lia|].
      rewrite Forall_forall in Hrange. specialize (Hrange 100 Hin). lia.
    + intros _. constructor; [lia|].
      eapply Forall_impl; [exact Hrange|]. cbn. lia.
  - cbn [progress_sent omap list_omap].
    change (omap _ ((ProgressSet <$> values) ++ ?t))
      with (progress_sent ((ProgressSet <$> values) ++ t)).
    rewrite progress_sent_progress. cbn [succeeded existsb orb].
    change (existsb _ ((ProgressSet <$> values) ++ ?t))
      with (succeeded ((ProgressSet <$> values) ++ t)).
    rewrite succeeded_progress. cbn. split; [|discriminate].
    split; [done|]. intros _.
    apply elem_of_cons. right. apply elem_of_app. right. apply list_elem_of_here.
Qed.

(** X14: one feature on which the loop body raises stops the whole run: the
    features before it were visited, the error of that feature is shown, and
    nothing is written, the survivors found so far included. *)
Theorem repair_aborts_on_raising_feature (input_path output_path : string)
    (data : gmap string json) (before after : list json) (bad : json) (e : exn) :
  read_json input_path = Ok (JDict data) →
  data !! "features" = Some (JList (before ++ bad :: after)) →
  Forall (fun feat => ∃ v, visit feat = Ok v) before →
  visit bad = Raise e →
  dumps (repair_geojson_no_gpd input_path output_path) = []
  ∧ ∃ values : list Z,
      (length values ≤ length before)%nat
      ∧ repair_geojson_no_gpd input_path output_path
        = ProgressSet 10 :: ProgressSet 30 :: (ProgressSet <$> values)
          ++ [ShowError "错误" (exn_str e)].
Proof.
  intros Hread Hfeatures Hbefore Hbad.
  rewrite repair_geojson_no_gpd_eq, repair_body_eq, Hread.
  cbn [py_get py_setitem]. rewrite Hfeatures. cbn [from_option id py_len py_iter].
  cbv zeta. rewrite (visits_first_raise before after bad e Hbefore Hbad).
  cbn [fst snd]. split.
  - cbn [app dumps List.filter]. exact (dumps_progress _ _).
  - eexists. split; [|reflexivity].
    assert (Hcount : ∀ verdicts total done,
              (length (progress_after verdicts total done) ≤ length verdicts)%nat).
    { induction verdicts as [|v verdicts IH]; intros total done'; cbn; [lia|].
      destruct (counted v); cbn; [specialize (IH total (done' + 1))|specialize (IH total done')]; lia. }
    pose proof (visits_length before). pose proof (Hcount (visits before).1
      (Z.of_nat (length (before ++ bad :: after))) 0). lia.
Qed.

(** X15: when the output file cannot be written the run shows that error
    after the loop: the progress values stop below 100 and no success is
    reported. *)
Theorem repair_write_failure (input_path output_path : string)
    (data : gmap string json) (feats : list json) (e : exn) :
  read_json input_path = Ok (JDict data) →
  py_iter (from_option id (JList []) (data !! "features")) = Ok feats →
  Forall (fun feat => ∃ v, visit feat = Ok v) feats →
  open_write output_path = Some e →
  ∃ values : list Z,
    Forall (fun v => 30 ≤ v ≤ 90) values
    ∧ repair_geojson_no_gpd input_path output_path
      = ProgressSet 10 :: ProgressSet 30 :: (ProgressSet <$> values)
        ++ [ShowError "错误" (exn_str e)].
Proof.
  intros Hread Hiter Hall Hopen.
  rewrite repair_geojson_no_gpd_eq, repair_body_eq, Hread.
  cbn [py_get py_setitem]. rewrite (py_iter_len _ feats Hiter), Hiter. cbv zeta.
  apply visits_none_iff in Hall. rewrite Hall, Hopen. cbn [fst snd].
  destruct (loop_progress_bounds feats) as [Hrange _].
  by eexists.
Qed.

(** X16: a document without features. When the key [features] is missing
    or holds nothing to iterate (an empty list, and also an empty string or
    dict), the run succeeds: it sets [features] to the empty list, writes
    the document and reports 10, 30, 100. *)
Theorem repair_no_features (input_path output_path : string)
    (data : gmap string json) :
  read_json input_path = Ok (JDict data) →
  py_iter (from_option id (JList []) (data !! "features")) = Ok [] →
  open_write output_path = None →
  repair_geojson_no_gpd input_path output_path
  = [ProgressSet 10; ProgressSet 30;
     JsonDump output_path (JDict (<["features" := JList []]> data)) false 2;
     ProgressSet 100;
     ShowInfo "完成" ("修复成功：" +:+ newline +:+ output_path)].
Proof.
  intros Hread Hiter Hopen.
  rewrite repair_geojson_no_gpd_eq, repair_body_eq, Hread.
  cbn [py_get py_setitem]. rewrite (py_iter_len _ [] Hiter), Hiter. cbv zeta.
  cbn [visits fst snd]. by rewrite Hopen.
Qed.

(** X17: a document of the wrong shape. When the loaded document is not a
    dict, or its [features] is a value without length ([None], a number, a
    boolean), the run stops at progress 30 with the error of that access,
    and writes nothing. *)
Theorem repair_wrong_shape (input_path output_path : string)
    (data : json) (e : exn) :
  read_json input_path = Ok data →
  py_get data "features" (JList []) = Raise e
  ∨ (∃ features, py_get data "features" (JList []) = Ok features
       ∧ py_len features = Raise e) →
  repair_geojson_no_gpd input_path output_path
  = [ProgressSet 10; ProgressSet 30; ShowError "错误" (exn_str e)].
Proof.
  intros Hread Hshape.
  rewrite repair_geojson_no_gpd_eq, repair_body_eq, Hread.
  destruct Hshape as [-> | (features & -> & ->)]; reflexivity.
Qed.

(** X18: a feature the pipeline leaves alone. When the engine parses the
    export of a valid, non-empty geometry back to that geometry, and the
    normalizer has nothing to change in the export, a feature that carries
    the export survives as it is: running the repair on such output changes
    nothing. *)
Theorem survivor_fixed_point (fm : gmap string json) (g : geometry) :
  fm !! "geometry" = Some (mapping g) →
  truthy (mapping g) = true →
  fix_geojson_structure (mapping g) = Ok (mapping g) →
  shape (mapping g) = Ok g →
  is_valid g = true →
  is_empty g = false →
  survivor (JDict fm) = Some (JDict fm).
Proof.
  intros Hgeom Htruthy Hfix Hshape Hvalid Hempty.
  unfold survivor, visit. cbn [py_get mbind res_bind]. rewrite Hgeom.
  cbn [from_option id]. rewrite Htruthy, Hfix. cbn [mbind res_bind py_setitem].
  rewrite Hshape. unfold fix_polygon_validity. rewrite Hvalid.
  cbn [mbind res_bind]. rewrite Hempty. cbn [mbind res_bind kept].
  by rewrite insert_insert_eq, insert_id.
Qed.

End MoreRun.

(** On the mock engine: a number among the features stops the run after
    the first feature. *)
Lemma repair_aborts_on_raising_feature_witness :
  let feats := [Mock.feature "a" (Mock.polygon (JList [Mock.ring]));
                JInt 7;
                Mock.feature "d" (Mock.polygon Mock.ring)] in
  dumps (Mock.run (Ok (Mock.collection feats))) = []
  ∧ ∃ values : list Z,
      (length values ≤ 1)%nat
      ∧ Mock.run (Ok (Mock.collection feats))
        = ProgressSet 10 :: ProgressSet 30 :: (ProgressSet <$> values)
          ++ [ShowError "错误" "'int' object has no attribute 'get'"].
Proof.
  intros feats.
  apply (@repair_aborts_on_raising_feature Mock.mock_engine
           (Mock.mock_files (Ok (Mock.collection feats)))
           "in.geojson" "out.geojson"
           {[ "type" := JStr "FeatureCollection";
              "name" := JStr "地块";
              "features" := JList feats ]}
           [Mock.feature "a" (Mock.polygon (JList [Mock.ring]))]
           [Mock.feature "d" (Mock.polygon Mock.ring)]
           (JInt 7)
           (Exn AttributeError "'int' object has no attribute 'get'")).
  - reflexivity.
  - vm_compute; reflexivity.
  - repeat constructor. eexists. vm_compute; reflexivity.
  - reflexivity.
Defined.

Lemma sample_feats_visited :
  Forall (fun feat => ∃ v, @visit Mock.mock_engine feat = Ok v) Mock.sample_feats.
Proof. repeat constructor; eexists; vm_compute; reflexivity. Defined.

(** On the mock engine: the sample, with an output that cannot be
    written. *)
Lemma repair_write_failure_witness :
  ∃ values : list Z,
    Forall (fun v => 30 ≤ v ≤ 90) values
    ∧ @repair_geojson_no_gpd Mock.mock_engine
        (MockHost.read_only_files (Ok Mock.sample)) "in.geojson" "out.geojson"
      = ProgressSet 10 :: ProgressSet 30 :: (ProgressSet <$> values)
        ++ [ShowError "错误" "[Errno 13] Permission denied: 'out.geojson'"].
Proof.
  apply (@repair_write_failure Mock.mock_engine
           (MockHost.read_only_files (Ok Mock.sample)) "in.geojson" "out.geojson"
           Mock.sample_data Mock.sample_feats
           (Exn OtherError "[Errno 13] Permission denied: 'out.geojson'")).
  - reflexivity.
  - vm_compute; reflexivity.
  - exact sample_feats_visited.
  - reflexivity.
Defined.

(** A document that has no [features] key gets an empty one. *)
Lemma repair_no_features_witness :
  Mock.run (Ok (JDict {[ "type" := JStr "FeatureCollection" ]}))
  = [ProgressSet 10; ProgressSet 30;
     JsonDump "out.geojson"
       (JDict (<["features" := JList []]> {[ "type" := JStr "FeatureCollection" ]}))
       false 2;
     ProgressSet 100;
     ShowInfo "完成" ("修复成功：" +:+ newline +:+ "out.geojson")].
Proof.
  apply (@repair_no_features Mock.mock_engine
           (Mock.mock_files (Ok (JDict {[ "type" := JStr "FeatureCollection" ]})))
           "in.geojson" "out.geojson").
  - reflexivity.
  - vm_compute; reflexivity.
  - reflexivity.
Defined.

(** A document that is a list, and one whose [features] is [None]. *)
Lemma repair_wrong_shape_witness :
  Mock.run (Ok (JList []))
  = [ProgressSet 10; ProgressSet 30;
     ShowError "错误" "'list' object has no attribute 'get'"]
  ∧ Mock.run (Ok (JDict {[ "features" := JNull ]}))
    = [ProgressSet 10; ProgressSet 30;
       ShowError "错误" "object of type 'NoneType' has no len()"].
Proof.
  split.
  - apply (@repair_wrong_shape Mock.mock_engine (Mock.mock_files (Ok (JList [])))
             "in.geojson" "out.geojson" (JList [])
             (Exn AttributeError "'list' object has no attribute 'get'")).
    + reflexivity.
    + left. reflexivity.
  - apply (@repair_wrong_shape Mock.mock_engine
             (Mock.mock_files (Ok (JDict {[ "features" := JNull ]})))
             "in.geojson" "out.geojson" (JDict {[ "features" := JNull ]})
             (Exn TypeError "object of type 'NoneType' has no len()")).
    + reflexivity.
    + right. exists JNull. split; vm_compute; reflexivity.
Defined.

(** On the mock engine: a feature with a valid polygon of depth 3 passes
    unchanged. *)
Lemma survivor_fixed_point_witness :
  @survivor Mock.mock_engine (Mock.feature "a" (Mock.polygon (JList [Mock.ring])))
  = Some (Mock.feature "a" (Mock.polygon (JList [Mock.ring]))).
Proof.
  apply (@survivor_fixed_point Mock.mock_engine
           {[ "type" := JStr "Feature";
              "properties" := JDict {[ "name" := JStr "a" ]};
              "geometry" := Mock.polygon (JList [Mock.ring]) ]}
           (Mock.polygon (JList [Mock.ring]))); vm_compute; reflexivity.
Defined.

(** On the mock engine: a valid polygon and a feature without geometry,
    neither left by [continue]: 10, 30, 60, 90, 100. *)
Lemma progress_as_specified_witness :
  let doc := Mock.collection [Mock.feature "a" (Mock.polygon (JList [Mock.ring]));
                              JDict Mock.feature_b] in
  progress_sent (Mock.run (Ok doc)) = spec_progress 2.
Proof.
  intros doc.
  assert (Hsucc : succeeded (Mock.run (Ok doc)) = true) by (vm_compute; reflexivity).
  destruct (@progress_as_specified Mock.mock_engine (Mock.mock_files (Ok doc))
              "in.geojson" "out.geojson" Hsucc)
    as (data & feats & Hread & Hiter & Hspec).
  injection Hread as <-. vm_compute in Hiter. injection Hiter as <-.
  apply Hspec. repeat constructor; vm_compute; discriminate.
Defined.

(** * The form *)

Lemma select_input_entry (path : string) (st : form) :
  entry_input (select_input path st)
  = (if truthy (JStr path) then path else entry_input st)
  ∧ entry_output (select_input path st) = entry_output st.
Proof. unfold select_input. by destruct (truthy (JStr path)). Qed.

Lemma select_output_entry (path : string) (st : form) :
  entry_output (select_output path st)
  = (if truthy (JStr path) then path else entry_output st)
  ∧ entry_input (select_output path st) = entry_input st.
Proof. unfold select_output. by destruct (truthy (JStr path)). Qed.

(** X21: after any sequence of file dialogs each entry holds the last path
    chosen in its own dialog; a cancelled dialog and the other dialog leave
    it alone, and an entry for which nothing was chosen is as it was. *)
Theorem entries_hold_last_choice (choices : list choice) (st : form) :
  entry_input (foldl choose st choices)
  = from_option id (entry_input st) (last_input choices)
  ∧ entry_output (foldl choose st choices)
    = from_option id (entry_output st) (last_output choices).
Proof.
  induction choices as [|c choices IH] using rev_ind; [done|].
  rewrite foldl_app. cbn [foldl]. unfold last_input, last_output in *.
  rewrite !omap_app. destruct IH as [IHin IHout].
  destruct c as [path|path]; cbn [choose omap list_omap].
  - destruct (select_input_entry path (foldl choose st choices)) as [-> ->].
    destruct (truthy (JStr path)); cbn [app];
      rewrite ?app_nil_r, ?last_snoc; by split.
  - destruct (select_output_entry path (foldl choose st choices)) as [-> ->].
    destruct (truthy (JStr path)); cbn [app];
      rewrite ?app_nil_r, ?last_snoc; by split.
Qed.

Section FormProperties.
Context {host : Host} {engine : Engine} {files : Files}.

(** The two ways a click goes. *)
Lemma click_start_cases (st : form) :
  ((path_exists (strip (entry_input st)) = false
    ∨ strip (entry_output st) = "")
   ∧ ∃ message, click_start st = [ShowWarning "提示" message])
  ∨ (path_exists (strip (entry_input st)) = true
     ∧ strip (entry_output st) ≠ ""
     ∧ click_start st
       = Run (ProgressSet 0)
         :: After 100 (strip (entry_input st)) (strip (entry_output st))
         :: (Run <$> repair_geojson_no_gpd (strip (entry_input st))
                       (strip (entry_output st)))).
Proof.
  unfold click_start, start. cbv zeta.
  destruct (path_exists (strip (entry_input st))); cbn [negb].
  2:{ left. split; [by left | by eexists]. }
  cbn [truthy]. destruct (String.eqb_spec (strip (entry_output st)) "") as [Heq|Hne];
    cbn [negb].
  { left. split; [by right | by eexists]. }
  right. split; [done|]. split; [done|].
  cbn. by rewrite app_nil_r.
Qed.

Lemma dialogs_of_run (trace : list event) :
  List.filter is_dialog (Run <$> trace) = Run <$> List.filter is_outcome trace.
Proof.
  induction trace as [|ev trace IH]; [done|].
  cbn [fmap list_fmap List.filter is_dialog]. rewrite IH.
  by destruct (is_outcome ev).
Qed.

Lemma one_outcome (input_path output_path : string) :
  length (List.filter is_outcome (repair_geojson_no_gpd input_path output_path))
  = 1%nat.
Proof.
  destruct (repair_trace_shape input_path output_path)
    as (values & _ & [[message ->] | [data ->]]);
    cbn [List.filter is_outcome]; by rewrite outcomes_progress.
Qed.

(** X19: every click on the start button ends in exactly one dialog: the
    warning that asks for an input file when the stripped input path does
    not exist, else the warning that asks for an output path when the
    stripped output path is empty, and otherwise the one message, success or
    error, of the run on the two stripped paths. *)
Theorem click_start_one_dialog (st : form) :
  length (List.filter is_dialog (click_start st)) = 1%nat
  ∧ (path_exists (strip (entry_input st)) = false →
     List.filter is_dialog (click_start st)
     = [ShowWarning "提示" "请选择正确的输入文件"])
  ∧ (path_exists (strip (entry_input st)) = true →
     strip (entry_output st) = "" →
     List.filter is_dialog (click_start st)
     = [ShowWarning "提示" "请设置输出路径"])
  ∧ (path_exists (strip (entry_input st)) = true →
     strip (entry_output st) ≠ "" →
     List.filter is_dialog (click_start st)
     = Run <$> List.filter is_outcome
                 (repair_geojson_no_gpd (strip (entry_input st))
                    (strip (entry_output st)))).
Proof.
  destruct (path_exists (strip (entry_input st))) eqn:Hexists.
  2:{ unfold click_start, start. cbv zeta. rewrite Hexists. cbn.
      repeat split; done. }
  destruct (String.eqb_spec (strip (entry_output st)) "") as [Hempty|Hout].
  { unfold click_start, start. cbv zeta. rewrite Hexists. cbn [negb truthy].
    rewrite (proj2 (String.eqb_eq _ _) Hempty). cbn.
    repeat split; done. }
  destruct (click_start_cases st) as [[[H|H] _] | (_ & _ & ->)]; [congruence..|].
  cbn [List.filter is_dialog is_outcome]. rewrite dialogs_of_run.
  split; [|split; [|split]].
  - rewrite length_fmap. apply one_outcome.
  - discriminate.
  - intros _ Hempty. by destruct Hout.
  - done.
Qed.

(** X20: a click writes at most the file named in the output entry, and
    only when the input named in the input entry exists and the output path
    is not empty. *)
Theorem click_start_writes (st : form) (path : string) (data : json)
    (ensure_ascii : bool) (indent : Z) :
  Run (JsonDump path data ensure_ascii indent) ∈ click_start st →
  path = strip (entry_output st)
  ∧ path ≠ ""
  ∧ path_exists (strip (entry_input st)) = true.
Proof.
  destruct (click_start_cases st) as [[_ [message ->]] | (Hexists & Hout & ->)].
  { intros Hin. apply list_elem_of_singleton in Hin. discriminate Hin. }
  intros Hin.
  apply elem_of_cons in Hin as [Hin|Hin]; [discriminate Hin|].
  apply elem_of_cons in Hin as [Hin|Hin]; [discriminate Hin|].
  apply list_elem_of_fmap in Hin as (ev & [= <-] & Hev).
  destruct (repair_trace_shape (strip (entry_input st)) (strip (entry_output st)))
    as (values & _ & [[message Htrace] | [data' Htrace]]); rewrite Htrace in Hev.
  - apply elem_of_cons in Hev as [Hev|Hev]; [discriminate Hev|].
    apply elem_of_app in Hev as [Hev|Hev].
    + apply list_elem_of_fmap in Hev as (v & Hv & _). discriminate Hv.
    + apply list_elem_of_singleton in Hev. discriminate Hev.
  - apply elem_of_cons in Hev as [Hev|Hev]; [discriminate Hev|].
    apply elem_of_app in Hev as [Hev|Hev].
    + apply list_elem_of_fmap in Hev as (v & Hv & _). discriminate Hv.
    + apply elem_of_cons in Hev as [Hev|Hev].
      * injection Hev as -> _ _ _. by repeat split.
      * apply elem_of_cons in Hev as [Hev|Hev]; [discriminate Hev|].
        apply list_elem_of_singleton in Hev. discriminate Hev.
Qed.

Lemma progress_shown_run (trace : list event) :
  progress_shown (Run <$> trace) = progress_sent trace.
Proof.
  unfold progress_shown, progress_sent.
  induction trace as [|ev trace IH]; [done|].
  destruct ev; cbn; by rewrite IH.
Qed.

(** X22: the progress bar over a click. A click that is refused sets no
    progress value; one that is accepted sets 0 first and then the values of
    the run, which never decrease and stay within 0..100. *)
Theorem click_start_progress (st : form) :
  StronglySorted Z.le (progress_shown (click_start st))
  ∧ Forall (fun v => 0 ≤ v ≤ 100) (progress_shown (click_start st))
  ∧ (progress_shown (click_start st) = [] ↔
       path_exists (strip (entry_input st)) = false
       ∨ strip (entry_output st) = "")
  ∧ (progress_shown (click_start st) ≠ [] →
       head (progress_shown (click_start st)) = Some 0).
Proof.
  destruct (click_start_cases st) as [[Hrefused [message ->]] | (Hexists & Hout & ->)].
  { cbn. repeat split; try done; constructor. }
  cbn [progress_shown omap list_omap].
  change (omap _ (Run <$> ?t)) with (progress_shown (Run <$> t)).
  rewrite progress_shown_run.
  destruct (repair_trace_shape (strip (entry_input st)) (strip (entry_output st)))
    as (values & [Hrange Hsorted] & Htrace).
  assert (Hsent : ∃ tail, (tail = [] ∨ tail = [100])
            ∧ progress_sent (repair_geojson_no_gpd (strip (entry_input st))
                               (strip (entry_output st)))
              = 10 :: values ++ tail).
  { destruct Htrace as [[message ->] | [data ->]].
    - exists []. split; [by left|]. cbn [progress_sent omap list_omap].
      change (omap _ ((ProgressSet <$> values) ++ ?t))
        with (progress_sent ((ProgressSet <$> values) ++ t)).
      by rewrite progress_sent_progress.
    - exists [100]. split; [by right|]. cbn [progress_sent omap list_omap].
      change (omap _ ((ProgressSet <$> values) ++ ?t))
        with (progress_sent ((ProgressSet <$> values) ++ t)).
      by rewrite progress_sent_progress. }
  destruct Hsent as (tail & Htail & ->).
  assert (Htail100 : Forall (fun v => 90 ≤ v ≤ 100) tail
                     ∧ StronglySorted Z.le tail).
  { destruct Htail as [-> | ->]; split; repeat constructor; lia. }
  destruct Htail100 as [Htail100 Htailsorted].
  assert (Hall : Forall (fun v => 30 ≤ v ≤ 100) (values ++ tail)).
  { apply Forall_app. split; (eapply Forall_impl; [eassumption|]); cbn; lia. }
  split; [|split; [|split]].
  - constructor; [constructor|].
    + apply StronglySorted_app_2; [|done..].
      intros x1 x2 Hx1 Hx2. rewrite Forall_forall in Hrange, Htail100.
      specialize (Hrange x1 Hx1). specialize (Htail100 x2 Hx2). lia.
    + eapply Forall_impl; [exact Hall|]. cbn. lia.
    + constructor; [lia|]. eapply Forall_impl; [exact Hall|]. cbn. lia.
  - constructor; [lia|]. constructor; [lia|].
    eapply Forall_impl; [exact Hall|]. cbn. lia.
  - split; [discriminate|]. intros [Hno | Hempty]; congruence.
  - done.
Qed.

End FormProperties.

(** On the mock host: the sample is written to the path of the output
    entry, stripped. *)
Lemma click_start_writes_witness :
  "out.geojson" = @strip MockHost.mock_host " out.geojson "
  ∧ "out.geojson" ≠ ""
  ∧ @path_exists MockHost.mock_host (@strip MockHost.mock_host "in.geojson ") = true.
Proof.
  eapply (@click_start_writes MockHost.mock_host Mock.mock_engine
            (Mock.mock_files (Ok Mock.sample))
            {| entry_input := "in.geojson "; entry_output := " out.geojson " |}
            "out.geojson" _ false 2).
  vm_compute.
  do 7 apply list_elem_of_further. apply list_elem_of_here.
Defined.

(** A run whose input cannot be loaded fails with the one value 10. *)
Lemma progress_100_iff_succeeded_witness :
  let e := Exn OtherError "[Errno 2] No such file or directory: 'in.geojson'" in
  Forall (fun v => v ≤ 90) (progress_sent (Mock.run (Raise e))).
Proof.
  intros e.
  destruct (@progress_100_iff_succeeded Mock.mock_engine
              (Mock.mock_files (Raise e)) "in.geojson" "out.geojson")
    as [_ Hfail].
  apply Hfail. vm_compute; reflexivity.
Defined.

(** On the mock host: a click on the empty form asks for an input file, and
    a click with an existing input and no output path asks for the output
    path. *)
Lemma click_start_one_dialog_witness :
  List.filter is_dialog
    (@click_start MockHost.mock_host Mock.mock_engine
       (Mock.mock_files (Ok Mock.sample))
       {| entry_input := ""; entry_output := "" |})
  = [ShowWarning "提示" "请选择正确的输入文件"]
  ∧ List.filter is_dialog
      (@click_start MockHost.mock_host Mock.mock_engine
         (Mock.mock_files (Ok Mock.sample))
         {| entry_input := " in.geojson"; entry_output := "  " |})
    = [ShowWarning "提示" "请设置输出路径"].
Proof.
  split.
  - destruct (@click_start_one_dialog MockHost.mock_host Mock.mock_engine
                (Mock.mock_files (Ok Mock.sample))
                {| entry_input := ""; entry_output := "" |})
      as (_ & Hinput & _).
    apply Hinput. vm_compute; reflexivity.
  - destruct (@click_start_one_dialog MockHost.mock_host Mock.mock_engine
                (Mock.mock_files (Ok Mock.sample))
                {| entry_input := " in.geojson"; entry_output := "  " |})
      as (_ & _ & Houtput & _).
    apply Houtput; vm_compute; reflexivity.
Defined.
